(** * The restoration pipeline of the derelict-building dashboard

    A shallow embedding of [app/main.py]: the vision analysis with its
    cache, the plan generation, the image edit with its single
    moderation retry, and the orchestrator that assembles and stores the
    result record.

    Python values that come from JSON are kept as a value type, the two
    module-level dictionaries are finite maps inside an explicit state,
    and every call that leaves the process (the chat deployments, the
    image-edit endpoint, [time.sleep], [uuid.uuid4], [time.strftime]) is
    logged in a trace and answered by an oracle indexed by how often it
    was asked before.  Exceptions are results of a small state-and-error
    monad in which the state reached before a [raise] is kept, as in
    Python.

    What is taken for granted: a text is a string of 8-bit characters
    (exact for the base64 payloads the pipeline handles); the content of
    a completion message is a text; only exceptions below [Exception]
    occur; [print] has no effect on any value and is left out.  The
    library functions whose results decide a branch are either written
    out ([base64.b64decode], [uuid4().hex], [dict.get], subscripting) or
    fields of the runtime ([hash], [float], [json.loads], [repr]). *)

From Stdlib Require Import ZArith String Ascii List Bool Lia.
From Stdlib Require Import Floats.SpecFloat.
From stdpp Require Import gmap strings pretty.
Import ListNotations.
Open Scope string_scope.
Open Scope Z_scope.

Set Warnings "-register-all".

(** ** Python values *)

(** What [json] produces, and hence what the [/restore] endpoint can hand
    to the pipeline as options, address and coordinates, and what the
    image-edit endpoint can answer. *)
Inductive PyVal :=
| VNone
| VBool (b : bool)
| VInt (z : Z)
| VFloat (f : spec_float)
| VStr (s : string)
| VList (l : list PyVal)
| VDict (d : gmap string PyVal).

(** [bool(v)], as used by [if v], [not v], [a and b], [a or b]. *)
Definition truthy (v : PyVal) : bool :=
  match v with
  | VNone => false
  | VBool b => b
  | VInt z => negb (z =? 0)
  | VFloat (S754_zero _) => false
  | VFloat _ => true
  | VStr s => negb (String.eqb s "")
  | VList l => match l with [] => false | _ :: _ => true end
  | VDict d => negb (Nat.eqb (size d) 0)
  end.

(** [type(v).__name__] *)
Definition type_name (v : PyVal) : string :=
  match v with
  | VNone => "NoneType"
  | VBool _ => "bool"
  | VInt _ => "int"
  | VFloat _ => "float"
  | VStr _ => "str"
  | VList _ => "list"
  | VDict _ => "dict"
  end.

(** [a or b] *)
Definition py_or (a b : PyVal) : PyVal := if truthy a then a else b.

(** [v != s] for a string [s]: a value of another type never equals a string. *)
Definition ne_str (v : PyVal) (s : string) : bool :=
  match v with
  | VStr s' => negb (String.eqb s' s)
  | _ => true
  end.

(** [v == s] for a string [s]. *)
Definition eq_str (v : PyVal) (s : string) : bool := negb (ne_str v s).

(** [not x] for the result of [os.environ.get]. *)
Definition not_set (x : option string) : bool :=
  match x with
  | None => true
  | Some s => String.eqb s ""
  end.

(** ** Exceptions *)

Inductive ExcClass :=
| PlainException      (* raise Exception(...) *)
| ValueError
| TypeError
| AttributeError
| KeyError
| IndexError
| OverflowError
| BinasciiError       (* binascii.Error, a ValueError *)
| JSONDecodeError     (* a ValueError *)
| ServiceError.       (* whatever an SDK or the network layer raises *)

Record Exception := mkExc { exc_class : ExcClass; exc_msg : string }.

Definition exc_class_eqb (a b : ExcClass) : bool :=
  match a, b with
  | PlainException, PlainException | ValueError, ValueError
  | TypeError, TypeError | AttributeError, AttributeError
  | KeyError, KeyError | IndexError, IndexError
  | OverflowError, OverflowError | BinasciiError, BinasciiError
  | JSONDecodeError, JSONDecodeError | ServiceError, ServiceError => true
  | _, _ => false
  end.

(** [isinstance(e, c)] for the classes an [except] clause of the module names. *)
Definition isinstance (e : Exception) (c : ExcClass) : bool :=
  exc_class_eqb (exc_class e) c ||
  match c, exc_class e with
  | ValueError, BinasciiError | ValueError, JSONDecodeError => true
  | _, _ => false
  end.

Inductive Res (A : Type) :=
| Ok (a : A)
| Raise (e : Exception).
Arguments Ok {A} a.
Arguments Raise {A} e.

(** ** Library functions the module calls *)

(** [s.endswith(c)] for a one-character [c]. *)
Fixpoint endswith (c : ascii) (s : string) : bool :=
  match s with
  | EmptyString => false
  | String a EmptyString => Ascii.eqb a c
  | String _ rest => endswith c rest
  end.

(** [base64.b64decode(s)] with its default [validate=False]: the text must
    be ASCII, then [binascii.a2b_base64] runs in its lenient mode, which
    skips characters outside the alphabet, stops at a complete pad
    sequence, and fails when the data characters do not fill a quad. *)
Definition b64_value (c : ascii) : option Z :=
  let n := Z.of_nat (nat_of_ascii c) in
  if (65 <=? n) && (n <=? 90) then Some (n - 65)
  else if (97 <=? n) && (n <=? 122) then Some (n - 71)
  else if (48 <=? n) && (n <=? 57) then Some (n + 4)
  else if n =? 43 then Some 62
  else if n =? 47 then Some 63
  else None.

Definition byte_of_Z (z : Z) : ascii := ascii_of_N (Z.to_N (Z.land z 255)).

Fixpoint string_of_chars (l : list ascii) : string :=
  match l with
  | [] => EmptyString
  | c :: r => String c (string_of_chars r)
  end.

Fixpoint a2b_base64 (s : string) (quad_pos : nat) (leftchar : Z) (pads : nat)
    (out : list ascii) : Res string :=
  match s with
  | EmptyString =>
      match quad_pos with
      | O => Ok (string_of_chars (rev out))
      | S O =>
          Raise (mkExc BinasciiError
            ("Invalid base64-encoded string: number of data characters (" +:+
             pretty (Z.of_nat (length out) / 3 * 4 + 1) +:+
             ") cannot be 1 more than a multiple of 4"))
      | _ => Raise (mkExc BinasciiError "Incorrect padding")
      end
  | String c rest =>
      if Ascii.eqb c "="%char then
        if Nat.leb 2 quad_pos then
          if Nat.leb 4 (quad_pos + S pads) then Ok (string_of_chars (rev out))
          else a2b_base64 rest quad_pos leftchar (S pads) out
        else a2b_base64 rest quad_pos leftchar pads out
      else
        match b64_value c with
        | None => a2b_base64 rest quad_pos leftchar pads out
        | Some this_ch =>
            match quad_pos with
            | O => a2b_base64 rest 1 this_ch 0 out
            | S O =>
                a2b_base64 rest 2 (Z.land this_ch 15) 0
                  (byte_of_Z (Z.lor (Z.shiftl leftchar 2) (Z.shiftr this_ch 4)) :: out)
            | S (S O) =>
                a2b_base64 rest 3 (Z.land this_ch 3) 0
                  (byte_of_Z (Z.lor (Z.shiftl leftchar 4) (Z.shiftr this_ch 2)) :: out)
            | _ =>
                a2b_base64 rest 0 0 0
                  (byte_of_Z (Z.lor (Z.shiftl leftchar 6) this_ch) :: out)
            end
        end
  end.

Fixpoint is_ascii (s : string) : bool :=
  match s with
  | EmptyString => true
  | String c rest => (Z.of_nat (nat_of_ascii c) <? 128) && is_ascii rest
  end.

Definition b64decode (s : string) : Res string :=
  if is_ascii s then a2b_base64 s 0 0 0 []
  else Raise (mkExc ValueError "string argument should contain only ASCII characters").

(** [uuid.uuid4().hex]: sixteen random bytes read as a 128-bit integer,
    variant and version bits forced, printed as 32 lower-case hex digits. *)
Definition uuid4_int (r : Z) : Z :=
  let i0 := r mod 2 ^ 128 in
  let i1 := Z.ldiff i0 (Z.shiftl 0xc000 48) in
  let i2 := Z.lor i1 (Z.shiftl 0x8000 48) in
  let i3 := Z.ldiff i2 (Z.shiftl 0xf000 64) in
  Z.lor i3 (Z.shiftl 4 76).

Definition hex_digit (z : Z) : ascii :=
  match String.get (Z.to_nat z) "0123456789abcdef" with
  | Some c => c
  | None => "0"%char
  end.

Fixpoint hex_fixed (n : nat) (z : Z) : string :=
  match n with
  | O => EmptyString
  | S k => String (hex_digit (Z.land (Z.shiftr z (4 * Z.of_nat k)) 15)) (hex_fixed k z)
  end.

Definition uuid4_hex (r : Z) : string := hex_fixed 32 (uuid4_int r).


(** [d.get(key, default)]; anything but a dict has no [get]. *)
Definition py_get (v : PyVal) (key : string) (dflt : PyVal) : Res PyVal :=
  match v with
  | VDict d => Ok (default dflt (d !! key))
  | _ => Raise (mkExc AttributeError
           ("'" +:+ type_name v +:+ "' object has no attribute 'get'"))
  end.

(** [v[key]] for a string key. *)
Definition getitem_str (v : PyVal) (key : string) : Res PyVal :=
  match v with
  | VDict d =>
      match d !! key with
      | Some x => Ok x
      | None => Raise (mkExc KeyError ("'" +:+ key +:+ "'"))
      end
  | VList _ => Raise (mkExc TypeError "list indices must be integers or slices, not str")
  | VStr _ => Raise (mkExc TypeError "string indices must be integers, not 'str'")
  | _ => Raise (mkExc TypeError ("'" +:+ type_name v +:+ "' object is not subscriptable"))
  end.

(** [v[0]] *)
Definition getitem_0 (v : PyVal) : Res PyVal :=
  match v with
  | VList (x :: _) => Ok x
  | VList [] => Raise (mkExc IndexError "list index out of range")
  | VStr (String c _) => Ok (VStr (String c EmptyString))
  | VStr EmptyString => Raise (mkExc IndexError "string index out of range")
  | VDict _ => Raise (mkExc KeyError "0")
  | _ => Raise (mkExc TypeError ("'" +:+ type_name v +:+ "' object is not subscriptable"))
  end.

(** ** The world outside the process *)

(** What a chat deployment does with one [client.complete] call: the SDK
    raises, or a response arrives whose [choices] carry the message texts. *)
Inductive ChatOutcome :=
| ChatRaises (e : Exception)
| ChatCompletes (choices : list string).

(** What [requests.post] does with one call. *)
Inductive PostOutcome :=
| PostRaises (e : Exception)
| PostResponds (status_code : Z) (text : string).

Record Runtime := {
  environ : gmap string string;               (* os.environ *)
  py_hash : string -> Z;                      (* hash() of a str *)
  py_repr : PyVal -> string;                  (* repr() *)
  float_of_str : string -> option spec_float; (* float(str); None is ValueError *)
  float_of_int : Z -> option spec_float;      (* float(int); None is OverflowError *)
  json_loads : string -> option PyVal;        (* json.loads; None is JSONDecodeError *)
  urandom16 : nat -> Z;                       (* the k-th os.urandom(16) *)
  strftime_now : nat -> string;               (* the k-th reading of the clock *)
  vision_service : nat -> ChatOutcome;        (* the k-th vision completion *)
  plan_service : nat -> ChatOutcome;          (* the k-th plan completion *)
  edit_service : nat -> PostOutcome           (* the k-th image-edit POST *)
}.

(** The multipart request of [_post_once]: [url], [headers], [files], [data]. *)
Record EditRequest := {
  req_url : string;
  req_api_key : string;
  req_image : string;
  req_prompt : string;
  req_model : string;
  req_size : string;
  req_quality : string;
  req_n : Z;
  req_timeout : Z
}.

(** What the process does to the outside, in the order it does it. *)
Inductive Event :=
| EvVision (endpoint api_key deployment text image_url : string)
| EvPlan (endpoint api_key deployment content : string)
| EvPost (req : EditRequest)
| EvSleep (seconds : Z)
| EvUuid4
| EvStrftime.

Definition is_vision (e : Event) : bool := match e with EvVision _ _ _ _ _ => true | _ => false end.
Definition is_plan (e : Event) : bool := match e with EvPlan _ _ _ _ => true | _ => false end.
Definition is_post (e : Event) : bool := match e with EvPost _ => true | _ => false end.
Definition is_uuid4 (e : Event) : bool := match e with EvUuid4 => true | _ => false end.
Definition is_strftime (e : Event) : bool := match e with EvStrftime => true | _ => false end.

Fixpoint count_events (p : Event -> bool) (tr : list Event) : nat :=
  match tr with
  | [] => O
  | e :: rest => if p e then S (count_events p rest) else count_events p rest
  end.

(** ** The result record and the process state *)

(** [result_data] of [restore_building_image]. *)
Record RestorationResult := {
  res_id : string;
  res_prompt : string;
  res_original_image : string;
  res_restored_image : PyVal;
  res_options : PyVal;
  res_azure_analysis : string;
  res_restoration_description : string;
  res_restoration_success : bool;
  res_address : PyVal;
  res_location_lat : option spec_float;
  res_location_lon : option spec_float;
  res_created_at : string
}.

Record State := {
  analysis_cache : gmap Z string;
  restoration_results : gmap string RestorationResult;
  trace : list Event
}.

Definition initial_state : State :=
  {| analysis_cache := ∅; restoration_results := ∅; trace := [] |}.

(** ** State and exceptions *)

Definition M (A : Type) : Type := State -> Res A * State.

Definition ret {A} (a : A) : M A := fun s => (Ok a, s).

Definition raise {A} (e : Exception) : M A := fun s => (Raise e, s).

Definition bind {A B} (m : M A) (k : A -> M B) : M B :=
  fun s =>
    match m s with
    | (Ok a, s') => k a s'
    | (Raise e, s') => (Raise e, s')
    end.

Definition lift {A} (r : Res A) : M A := fun s => (r, s).

(** [try: m  except Exception as e: h e] *)
Definition try_except {A} (m : M A) (h : Exception -> M A) : M A :=
  fun s =>
    match m s with
    | (Ok a, s') => (Ok a, s')
    | (Raise e, s') => h e s'
    end.

(** [try: m  except (c1, c2, ...): h] *)
Definition try_except_of {A} (cs : list ExcClass) (m : M A) (h : Exception -> M A) : M A :=
  fun s =>
    match m s with
    | (Ok a, s') => (Ok a, s')
    | (Raise e, s') => if existsb (isinstance e) cs then h e s' else (Raise e, s')
    end.

Notation "x <- m ;; k" := (bind m (fun x => k))
  (at level 100, m at next level, k at level 200, right associativity).
Notation "m ;;; k" := (bind m (fun _ => k))
  (at level 100, k at level 200, right associativity).

(** The state with one more event at the end of its trace. *)
Definition log (e : Event) (s : State) : State :=
  {| analysis_cache := analysis_cache s;
     restoration_results := restoration_results s;
     trace := trace s ++ [e] |}.

Definition emit (e : Event) : M unit := fun s => (Ok tt, log e s).

Definition get_state : M State := fun s => (Ok s, s).

Definition cache_store (k : Z) (v : string) : M unit :=
  fun s =>
    (Ok tt, {| analysis_cache := <[k := v]> (analysis_cache s);
               restoration_results := restoration_results s;
               trace := trace s |}).

Definition results_store (k : string) (v : RestorationResult) : M unit :=
  fun s =>
    (Ok tt, {| analysis_cache := analysis_cache s;
               restoration_results := <[k := v]> (restoration_results s);
               trace := trace s |}).

Definition chat_outcome (o : ChatOutcome) : Res (list string) :=
  match o with
  | ChatRaises e => Raise e
  | ChatCompletes choices => Ok choices
  end.

(** [response.choices[0].message.content] *)
Definition first_choice (choices : list string) : Res string :=
  match choices with
  | c :: _ => Ok c
  | [] => Raise (mkExc IndexError "list index out of range")
  end.

(** ** Calls that leave the process *)

Section Pipeline.

Variable rt : Runtime.

(** [os.environ.get(name)] and [os.environ.get(name, dflt)] *)
Definition getenv (name : string) : option string := environ rt !! name.
Definition getenv_or (name dflt : string) : string := default dflt (environ rt !! name).

(** [str(v)], as an f-string applies it. *)
Definition py_str (v : PyVal) : string :=
  match v with
  | VStr s => s
  | VNone => "None"
  | VBool true => "True"
  | VBool false => "False"
  | VInt z => pretty z
  | _ => py_repr rt v
  end.

(** [float(v)] *)
Definition py_float (v : PyVal) : Res spec_float :=
  match v with
  | VStr s =>
      match float_of_str rt s with
      | Some f => Ok f
      | None => Raise (mkExc ValueError
                  ("could not convert string to float: " +:+ py_repr rt v))
      end
  | VInt z =>
      match float_of_int rt z with
      | Some f => Ok f
      | None => Raise (mkExc OverflowError "int too large to convert to float")
      end
  | VBool true => Ok (S754_finite false 4503599627370496 (-52))
  | VBool false => Ok (S754_zero false)
  | VFloat f => Ok f
  | _ => Raise (mkExc TypeError
           ("float() argument must be a string or a real number, not '" +:+
            type_name v +:+ "'"))
  end.

(** [json.loads(v)] *)
Definition py_json_loads (v : PyVal) : Res PyVal :=
  match v with
  | VStr s =>
      match json_loads rt s with
      | Some j => Ok j
      | None => Raise (mkExc JSONDecodeError "Expecting value")
      end
  | _ => Raise (mkExc TypeError
           ("the JSON object must be str, bytes or bytearray, not " +:+ type_name v))
  end.

(** [ChatCompletionsClient(...).complete(messages=...)] with the image attached. *)
Definition complete_vision (endpoint api_key deployment text image_url : string)
    : M (list string) :=
  s <- get_state ;;
  emit (EvVision endpoint api_key deployment text image_url) ;;;
  lift (chat_outcome (vision_service rt (count_events is_vision (trace s)))).

(** [ChatCompletionsClient(...).complete(messages=...)] with the plan request. *)
Definition complete_plan (endpoint api_key deployment content : string)
    : M (list string) :=
  s <- get_state ;;
  emit (EvPlan endpoint api_key deployment content) ;;;
  lift (chat_outcome (plan_service rt (count_events is_plan (trace s)))).

(** [requests.post(url, headers=headers, files=files, data=data, timeout=90)] *)
Definition requests_post (req : EditRequest) : M (Z * string) :=
  s <- get_state ;;
  emit (EvPost req) ;;;
  match edit_service rt (count_events is_post (trace s)) with
  | PostRaises e => raise e
  | PostResponds status_code text => ret (status_code, text)
  end.

(** [time.sleep(seconds)] *)
Definition sleep (seconds : Z) : M unit := emit (EvSleep seconds).

(** [uuid.uuid4().hex] *)
Definition uuid4 : M string :=
  s <- get_state ;;
  emit EvUuid4 ;;;
  ret (uuid4_hex (urandom16 rt (count_events is_uuid4 (trace s)))).

(** [time.strftime("%Y-%m-%d %H:%M:%S")] *)
Definition strftime : M string :=
  s <- get_state ;;
  emit EvStrftime ;;;
  ret (strftime_now rt (count_events is_strftime (trace s))).

(** ** The module *)

Definition nl : string := String (ascii_of_nat 10) EmptyString.

(** A text given line by line, the lines joined by newlines. *)
Definition lines (l : list string) : string := String.concat nl l.

(** [RESTORATION_STYLES], the styles the upload form offers. *)
Definition RESTORATION_STYLES : list string :=
  [ "Modern renovation";
    "Historical restoration";
    "Eco-friendly renovation";
    "Luxury upgrade";
    "Commercial conversion";
    "Residential conversion";
    "Mixed-use development";
    "Minimalist restoration" ].

(** [RESTORATION_PROMPT.format(style_instruction=..., additional_instructions=...)] *)
Definition RESTORATION_PROMPT (style_instruction additional_instructions : string) : string :=
  lines [
    "";
    "Create a realistic visualization of a derelict building after professional restoration and renovation.";
    style_instruction;
    additional_instructions;
    "Maintain the same architectural footprint and core structure, but repair all damage.";
    "Fix broken windows, repair the facade, update the exterior, and modernize the appearance while respecting the building's original character.";
    "Make the surrounding area clean and well-maintained.";
    "The result should look like a professional architectural visualization of the restored building.";
    ""
  ].

(** The text both fallback paths of the analysis return. *)
Definition ANALYSIS_FALLBACK : string :=
  "Modern building with standard architectural features requiring restoration.".

Definition VISION_INSTRUCTION : string :=
  "Analyze this building image and describe its architectural style, condition, key features, and suggest specific restoration considerations. Focus on structural elements, materials, and historical significance if any. Keep response under 200 words.".

(** [analyze_building_with_azure(image_data)] *)
Definition analyze_building_with_azure (image_data : string) : M string :=
  try_except
    (let image_hash := py_hash rt (substring 0 100 image_data) in
     s <- get_state ;;
     match analysis_cache s !! image_hash with
     | Some cached => ret cached
     | None =>
         let azure_api_key := getenv "AZURE_OPENAI_API_KEY" in
         let azure_endpoint := getenv "AZURE_OPENAI_ENDPOINT" in
         let azure_deployment := getenv_or "AZURE_OPENAI_DEPLOYMENT_NAME" "gpt-4.1" in
         if not_set azure_api_key || not_set azure_endpoint then
           ret ANALYSIS_FALLBACK
         else
           response <- complete_vision (default "" azure_endpoint) (default "" azure_api_key)
                         azure_deployment VISION_INSTRUCTION
                         ("data:image/jpeg;base64," +:+ image_data) ;;
           analysis <- lift (first_choice response) ;;
           cache_store image_hash analysis ;;;
           ret analysis
     end)
    (fun e => ret ANALYSIS_FALLBACK).

(** The f-string [restoration_prompt] of the plan generation. *)
Definition plan_request (building_analysis prompt : string) : string :=
  lines [
    "";
    "        Based on this building analysis: " +:+ building_analysis;
    "";
    "        And this restoration request: " +:+ prompt;
    "";
    "        Create a detailed, professional restoration plan that includes:";
    "        1. Specific architectural improvements";
    "        2. Materials and techniques to be used";
    "        3. Timeline considerations";
    "        4. Heritage preservation aspects";
    "        5. Modern upgrades and sustainability features";
    "";
    "        Write this as a comprehensive restoration proposal that could be presented to stakeholders.";
    "        "
  ].

(** [generate_restoration_description_with_azure(prompt, building_analysis)] *)
Definition generate_restoration_description_with_azure
    (prompt building_analysis : string) : M string :=
  try_except
    (let azure_api_key := getenv "AZURE_OPENAI_API_KEY" in
     let azure_endpoint := getenv "AZURE_OPENAI_ENDPOINT" in
     let azure_deployment := getenv_or "AZURE_OPENAI_DEPLOYMENT_NAME" "gpt-4.1" in
     if not_set azure_api_key || not_set azure_endpoint then
       raise (mkExc PlainException "Azure credentials not available")
     else
       let restoration_prompt := plan_request building_analysis prompt in
       response <- complete_plan (default "" azure_endpoint) (default "" azure_api_key)
                     azure_deployment restoration_prompt ;;
       description <- lift (first_choice response) ;;
       ret description)
    (fun e => raise e).

(** The f-string [prompt] of the image edit. *)
Definition edit_prompt (description : string) : string :=
  lines [
    "Transform this derelict building into a beautifully restored version";
    "while maintaining EXACTLY the same camera angle, perspective, and viewpoint.";
    "";
    "CRITICAL REQUIREMENTS:";
    "- Keep the EXACT same perspective, camera angle, and viewpoint";
    "- Maintain the same architectural proportions and scale";
    "- Preserve the building's structural footprint and shape";
    "- Create photorealistic results that look like professional architectural photography";
    "";
    "RESTORATION IMPROVEMENTS:";
    "- Clean and repair all damaged materials";
    "- Replace broken or boarded windows with new glass";
    "- Fresh paint or protective coatings to façades";
    "- Repair and modernize any visible roof elements";
    "- Clean surroundings and add tasteful landscaping";
    "- Subtle modern lighting fixtures highlighting architecture";
    "";
    "STYLE SPECIFICATIONS: " +:+ description;
    "";
    "OUTPUT REQUIREMENTS:";
    "- Professional architectural photography quality";
    "- Sharp, high-definition details";
    "- Natural lighting matching the original photo";
    "- Realistic materials and textures";
    "- Finished appearance suitable for a design portfolio";
    ""
  ].

(** The helper [_post_once] of [create_restoration_mockup]; what it closes
    over is passed as [req].  Only [requests.post] sits inside its [try]. *)
Definition _post_once (req : EditRequest) : M (bool * PyVal) :=
  r <- try_except
         (resp <- requests_post req ;; ret (inl resp))
         (fun e => ret (inr (false, VStr ("request_error: " +:+ exc_msg e)))) ;;
  match r with
  | inr early => ret early
  | inl (status_code, text) =>
      if status_code =? 200 then
        payload <- lift (py_json_loads (VStr text)) ;;
        data <- lift (py_get payload "data" VNone) ;;
        if truthy data then
          data <- lift (getitem_str payload "data") ;;
          first <- lift (getitem_0 data) ;;
          b64_json <- lift (getitem_str first "b64_json") ;;
          ret (true, b64_json)
        else ret (false, VStr "no_data_key")
      else ret (false, VStr text)
  end.

(** [err_code], read off the failed attempt's text inside a [try] that
    swallows every exception. *)
Definition error_code (result : PyVal) : M PyVal :=
  try_except
    (parsed <- lift (py_json_loads result) ;;
     error <- lift (py_get parsed "error" (VDict ∅)) ;;
     lift (py_get error "code" VNone))
    (fun _ => ret VNone).

(** [url], after a slash is added to an endpoint that lacks one. *)
Definition edit_url (endpoint deployment api_ver : string) : string :=
  let endpoint := if endswith "/" endpoint then endpoint else endpoint +:+ "/" in
  endpoint +:+ "openai/deployments/" +:+ deployment +:+
  "/images/edits?api-version=" +:+ api_ver.

(** [url], [headers], [files] and [data] of the edit request. *)
Definition edit_request (image_bytes description : string) : EditRequest :=
  let deployment := getenv_or "AZURE_OPENAI_DEPLOYMENT_NAME" "gpt-image-1" in
  let api_ver := getenv_or "AZURE_OPENAI_API_VERSION" "2025-04-01-preview" in
  {| req_url := edit_url (default "" (getenv "AZURE_OPENAI_ENDPOINT")) deployment api_ver;
     req_api_key := default "" (getenv "AZURE_OPENAI_API_KEY");
     req_image := image_bytes;
     req_prompt := edit_prompt description;
     req_model := deployment;
     req_size := "auto";
     req_quality := "medium";
     req_n := 1;
     req_timeout := 90 |}.

(** [create_restoration_mockup(original_image_data, description)] *)
Definition create_restoration_mockup (original_image_data description : string)
    : M PyVal :=
  let endpoint := getenv "AZURE_OPENAI_ENDPOINT" in
  let api_key := getenv "AZURE_OPENAI_API_KEY" in
  if not_set endpoint || not_set api_key then
    ret (VStr original_image_data)
  else
    image_bytes <- lift (b64decode original_image_data) ;;
    let req := edit_request image_bytes description in
    first <- _post_once req ;;
    final <- (if negb (fst first) then
                err_code <- error_code (snd first) ;;
                if eq_str err_code "moderation_blocked" then
                  sleep 2 ;;;
                  _post_once req
                else ret first
              else ret first) ;;
    if fst final && truthy (snd final) then ret (snd final)
    else ret (VStr original_image_data).

(** What [restore_building_image] returns: the stored [result_data], the
    dictionary with [error] and [help] of the credential check, or the
    dictionary with [error], [help] and [id] of the outer handler. *)
Inductive RestoreOutcome :=
| ResultData (r : RestorationResult)
| CredentialsError (error help : string)
| PipelineError (error help id : string).

(** [if flag: instructions.append(text)] *)
Definition append_if (flag : PyVal) (instructions : list string) (text : string)
    : list string :=
  if truthy flag then (instructions ++ [text])%list else instructions.

(** The plan text the orchestrator falls back to. *)
Definition plan_fallback (selected_style : PyVal) : string :=
  "Restoration plan for " +:+ py_str selected_style +:+
  " style renovation based on the analysis.".

(** The body of the outer [try] of [restore_building_image]. *)
Definition restore_body (result_id image_data : string)
    (options address lat lon : PyVal) : M RestorationResult :=
  building_analysis <- analyze_building_with_azure image_data ;;
  selected_style <- lift (py_get options "style" (VStr "Modern renovation")) ;;
  let style_instruction :=
    "Use a " +:+ py_str selected_style +:+ " style for the restoration." in
  let additional_instructions := ["Building analysis: " +:+ building_analysis] in
  preserve_heritage <- lift (py_get options "preserve_heritage" (VBool false)) ;;
  let additional_instructions :=
    append_if preserve_heritage additional_instructions
      "Preserve historical and heritage elements of the building." in
  landscaping <- lift (py_get options "landscaping" (VBool false)) ;;
  let additional_instructions :=
    append_if landscaping additional_instructions
      "Add attractive landscaping and greenery around the building." in
  lighting <- lift (py_get options "lighting" (VBool false)) ;;
  let additional_instructions :=
    append_if lighting additional_instructions
      "Add modern and attractive lighting to highlight architectural features." in
  expand_building <- lift (py_get options "expand_building" (VBool false)) ;;
  let additional_instructions :=
    append_if expand_building additional_instructions
      "Consider a tasteful expansion or addition that complements the original structure." in
  let additional_instructions_text := String.concat " " additional_instructions in
  let prompt := RESTORATION_PROMPT style_instruction additional_instructions_text in
  restoration_description <-
    try_except
      (generate_restoration_description_with_azure prompt building_analysis)
      (fun e => ret (plan_fallback selected_style)) ;;
  edited <-
    try_except
      (restored_img_data <- create_restoration_mockup image_data restoration_description ;;
       ret (restored_img_data, ne_str restored_img_data image_data))
      (fun e => ret (VStr image_data, false)) ;;
  location <-
    (if truthy lat && truthy lon then
       try_except_of [ValueError; TypeError]
         (latitude <- lift (py_float lat) ;;
          longitude <- lift (py_float lon) ;;
          ret (Some latitude, Some longitude))
         (fun _ => ret (None, None))
     else ret (None, None)) ;;
  created_at <- strftime ;;
  let result_data := {|
    res_id := result_id;
    res_prompt := prompt;
    res_original_image := image_data;
    res_restored_image := fst edited;
    res_options := options;
    res_azure_analysis := building_analysis;
    res_restoration_description := restoration_description;
    res_restoration_success := snd edited;
    res_address := py_or address (VStr "");
    res_location_lat := fst location;
    res_location_lon := snd location;
    res_created_at := created_at |} in
  results_store result_id result_data ;;;
  ret result_data.

Definition CREDENTIALS_ERROR : RestoreOutcome :=
  CredentialsError
    "Azure credentials not found in environment variables."
    "Please set AZURE_OPENAI_API_KEY, AZURE_OPENAI_ENDPOINT, and optionally AZURE_OPENAI_DEPLOYMENT_NAME environment variables.".

(** [restore_building_image(image_data, options, address, lat, lon)] *)
Definition restore_building_image (image_data : string)
    (options address lat lon : PyVal) : M RestoreOutcome :=
  let azure_api_key := getenv "AZURE_OPENAI_API_KEY" in
  let azure_endpoint := getenv "AZURE_OPENAI_ENDPOINT" in
  if not_set azure_api_key || not_set azure_endpoint then
    ret CREDENTIALS_ERROR
  else
    result_id <- uuid4 ;;
    try_except
      (result_data <- restore_body result_id image_data options address lat lon ;;
       ret (ResultData result_data))
      (fun e =>
         ret (PipelineError
                ("Restoration planning failed: " +:+ exc_msg e)
                "Please check your Azure AI credentials and GPT-4.1 deployment"
                result_id)).

End Pipeline.

(** The [id] entry of a returned dictionary, if it has one. *)
Definition outcome_id (o : RestoreOutcome) : option string :=
  match o with
  | ResultData r => Some (res_id r)
  | CredentialsError _ _ => None
  | PipelineError _ _ id => Some id
  end.

(** ** Vocabulary of the properties *)

(** Whether the two credentials every stage asks for are there; an empty
    value counts as missing, as [not value] does. *)
Definition credentials_missing (rt : Runtime) : bool :=
  not_set (environ rt !! "AZURE_OPENAI_API_KEY") ||
  not_set (environ rt !! "AZURE_OPENAI_ENDPOINT").

(** A failed attempt's text that reads as a structured error whose code
    is [moderation_blocked]. *)
Definition moderation_blocked (rt : Runtime) (result : PyVal) : bool :=
  match result with
  | VStr text =>
      match json_loads rt text with
      | Some (VDict body) =>
          match body !! "error" with
          | Some (VDict error) =>
              match error !! "code" with
              | Some (VStr code) => String.eqb code "moderation_blocked"
              | _ => false
              end
          | _ => false
          end
      | _ => false
      end
  | _ => false
  end.

(** A coordinate as the signature types it: a string, or [None]. *)
Definition textual (v : PyVal) : bool :=
  match v with
  | VNone | VStr _ => true
  | _ => false
  end.

(** The completion request the analysis sends for an image. *)
Definition vision_event (rt : Runtime) (image_data : string) : Event :=
  EvVision (default "" (environ rt !! "AZURE_OPENAI_ENDPOINT"))
           (default "" (environ rt !! "AZURE_OPENAI_API_KEY"))
           (default "gpt-4.1" (environ rt !! "AZURE_OPENAI_DEPLOYMENT_NAME"))
           VISION_INSTRUCTION
           ("data:image/jpeg;base64," +:+ image_data).

(** The cache key of an image: the hash of its first hundred characters. *)
Definition image_key (rt : Runtime) (image_data : string) : Z :=
  py_hash rt (substring 0 100 image_data).

(** Whether a call of the analysis in state [s] gets an analysis: the key
    is cached, or the credentials are there and the completion call is
    answered with a choice. *)
Definition analysis_obtained (rt : Runtime) (image_data : string) (s : State) : bool :=
  match analysis_cache s !! image_key rt image_data with
  | Some _ => true
  | None =>
      negb (credentials_missing rt) &&
      match vision_service rt (count_events is_vision (trace s)) with
      | ChatCompletes (_ :: _) => true
      | _ => false
      end
  end.

(** The completion request the plan generation sends. *)
Definition plan_event (rt : Runtime) (prompt building_analysis : string) : Event :=
  EvPlan (default "" (environ rt !! "AZURE_OPENAI_ENDPOINT"))
         (default "" (environ rt !! "AZURE_OPENAI_API_KEY"))
         (default "gpt-4.1" (environ rt !! "AZURE_OPENAI_DEPLOYMENT_NAME"))
         (plan_request building_analysis prompt).

(** What the closing [if success and result] makes of the last attempt. *)
Definition edited_or_original (original : string) (attempt : bool * PyVal) : PyVal :=
  if fst attempt && truthy (snd attempt) then snd attempt else VStr original.

(** Whether an attempt failed with the moderation code. *)
Definition attempt_blocked (rt : Runtime) (attempt : Res (bool * PyVal)) : bool :=
  match attempt with
  | Ok (false, result) => moderation_blocked rt result
  | _ => false
  end.

(** What a call of the image edit adds to the trace. *)
Definition edit_events (rt : Runtime) (original description : string) (s : State)
    : list Event :=
  if credentials_missing rt then []
  else
    match b64decode original with
    | Raise _ => []
    | Ok image_bytes =>
        let req := edit_request rt image_bytes description in
        if attempt_blocked rt (fst (_post_once rt req s))
        then [EvPost req; EvSleep 2; EvPost req]
        else [EvPost req]
    end.

(** [options.get(key, dflt)] on a dictionary. *)
Definition option_or (d : gmap string PyVal) (key : string) (dflt : PyVal) : PyVal :=
  default dflt (d !! key).

(** The prompt the orchestrator assembles from the options and the analysis. *)
Definition assembled_prompt (rt : Runtime) (d : gmap string PyVal) (analysis : string)
    : string :=
  RESTORATION_PROMPT
    ("Use a " +:+ py_str rt (option_or d "style" (VStr "Modern renovation")) +:+
     " style for the restoration.")
    (String.concat " "
       (append_if (option_or d "expand_building" (VBool false))
          (append_if (option_or d "lighting" (VBool false))
             (append_if (option_or d "landscaping" (VBool false))
                (append_if (option_or d "preserve_heritage" (VBool false))
                   ["Building analysis: " +:+ analysis]
                   "Preserve historical and heritage elements of the building.")
                "Add attractive landscaping and greenery around the building.")
             "Add modern and attractive lighting to highlight architectural features.")
          "Consider a tasteful expansion or addition that complements the original structure.")).

(** The coordinates block: both floats, nothing at all, or an exception
    that is neither a [ValueError] nor a [TypeError]. *)
Definition coerce_location (rt : Runtime) (lat lon : PyVal)
    : Res (option spec_float * option spec_float) :=
  if truthy lat && truthy lon then
    match py_float rt lat with
    | Ok latitude =>
        match py_float rt lon with
        | Ok longitude => Ok (Some latitude, Some longitude)
        | Raise e =>
            if existsb (isinstance e) [ValueError; TypeError] then Ok (None, None)
            else Raise e
        end
    | Raise e =>
        if existsb (isinstance e) [ValueError; TypeError] then Ok (None, None)
        else Raise e
    end
  else Ok (None, None).

(** The plan text the pipeline goes on with. *)
Definition plan_or_fallback (rt : Runtime) (d : gmap string PyVal)
    (generated : Res string) : string :=
  match generated with
  | Ok description => description
  | Raise _ => plan_fallback rt (option_or d "style" (VStr "Modern renovation"))
  end.

(** The edited image and the success flag the pipeline goes on with. *)
Definition edit_or_fallback (image_data : string) (edited : Res PyVal) : PyVal * bool :=
  match edited with
  | Ok restored_img_data => (restored_img_data, ne_str restored_img_data image_data)
  | Raise _ => (VStr image_data, false)
  end.

(** The state after [result_data] is stored: one clock reading, one entry. *)
Definition stored (result_id : string) (r : RestorationResult) (s : State) : State :=
  {| analysis_cache := analysis_cache s;
     restoration_results := <[result_id := r]> (restoration_results s);
     trace := trace s ++ [EvStrftime] |}.

(** The identifier the next [uuid.uuid4().hex] of state [s] yields. *)
Definition next_id (rt : Runtime) (s : State) : string :=
  uuid4_hex (urandom16 rt (count_events is_uuid4 (trace s))).

(** The [help] text of the outer handler. *)
Definition PIPELINE_HELP : string :=
  "Please check your Azure AI credentials and GPT-4.1 deployment".

(** The location two textual coordinates give: both floats when both are
    non-empty and [float] reads both, nothing otherwise. *)
Definition parsed_location (rt : Runtime) (lat lon : PyVal)
    : option spec_float * option spec_float :=
  match lat, lon with
  | VStr la, VStr lo =>
      if String.eqb la "" || String.eqb lo "" then (None, None)
      else
        match float_of_str rt la, float_of_str rt lo with
        | Some latitude, Some longitude => (Some latitude, Some longitude)
        | _, _ => (None, None)
        end
  | _, _ => (None, None)
  end.

(** Whether the completion call for the plan, made in state [s], comes
    back without a usable choice. *)
Definition plan_unanswered (rt : Runtime) (s : State) : bool :=
  match plan_service rt (count_events is_plan (trace s)) with
  | ChatCompletes (_ :: _) => false
  | _ => true
  end.

(** A coordinate the pipeline cannot use: absent, empty, or a string that
    [float] rejects. *)
Definition unusable (rt : Runtime) (v : PyVal) : bool :=
  match v with
  | VStr text =>
      String.eqb text "" ||
      match float_of_str rt text with
      | Some _ => false
      | None => true
      end
  | _ => true
  end.

(** The failures the fallback of the image edit is written for: the
    request raises, the status is not 200, or the 200 body is a
    dictionary without usable [data]. *)
Definition listed_failure (rt : Runtime) (o : PostOutcome) : bool :=
  match o with
  | PostRaises _ => true
  | PostResponds status_code text =>
      negb (status_code =? 200) ||
      match json_loads rt text with
      | Some (VDict payload) => negb (truthy (default VNone (payload !! "data")))
      | _ => false
      end
  end.

(** ** The web routes *)

(** [len(v)] *)
Definition py_len (v : PyVal) : Res Z :=
  match v with
  | VStr s => Ok (Z.of_nat (String.length s))
  | VList l => Ok (Z.of_nat (length l))
  | VDict d => Ok (Z.of_nat (size d))
  | _ => Raise (mkExc TypeError ("object of type '" +:+ type_name v +:+ "' has no len()"))
  end.

(** A float JSON can carry: anything but an infinity or a NaN. *)
Definition finite (f : spec_float) : bool :=
  match f with
  | S754_infinity _ | S754_nan => false
  | _ => true
  end.

(** Whether [json.dumps(v, allow_nan=False)], as the response class calls
    it, accepts the value. *)
Fixpoint json_compliant (v : PyVal) : bool :=
  match v with
  | VFloat f => finite f
  | VList l => forallb json_compliant l
  | VDict d => map_fold (fun _ x acc => json_compliant x && acc) true d
  | _ => true
  end.

Definition float_compliant (f : option spec_float) : bool :=
  match f with
  | Some x => finite x
  | None => true
  end.

(** The same for a dictionary [restore_building_image] returns. *)
Definition outcome_compliant (o : RestoreOutcome) : bool :=
  match o with
  | ResultData r =>
      json_compliant (res_restored_image r) && json_compliant (res_options r) &&
      json_compliant (res_address r) &&
      float_compliant (res_location_lat r) && float_compliant (res_location_lon r)
  | _ => true
  end.

(** What a [JSONResponse] is made from. *)
Inductive ResponseContent :=
| ContentError (error : string)
| ContentErrorHelp (error help : string)
| ContentOutcome (o : RestoreOutcome).

Record JSONResponse := {
  resp_content : ResponseContent;
  resp_status : Z
}.

(** [JSONResponse(content, status_code=status)]: the body is rendered when
    the response is made, and a float out of range makes that raise a
    [ValueError] (newer interpreters add the float to its message). *)
Definition json_response (content : ResponseContent) (status : Z) : M JSONResponse :=
  match content with
  | ContentOutcome o =>
      if outcome_compliant o then ret {| resp_content := content; resp_status := status |}
      else raise (mkExc ValueError "Out of range float values are not JSON compliant")
  | _ => ret {| resp_content := content; resp_status := status |}
  end.

(** The body of the [try] of [api_restore_building], given what
    [await request.json()] did.  The pipeline is embedded for text
    payloads; a request whose [image_data] is a non-empty list or
    dictionary reaches the pipeline with a payload of another type, and
    is left out ([None]). *)
Definition api_restore_try (rt : Runtime) (request_json : Res PyVal)
    : M (option JSONResponse) :=
  data <- lift request_json ;;
  image_data <- lift (py_get data "image_data" (VStr "")) ;;
  options <- lift (py_get data "options" (VDict ∅)) ;;
  address <- lift (py_get data "address" (VStr "")) ;;
  lat <- lift (py_get data "lat" (VStr "")) ;;
  lon <- lift (py_get data "lon" (VStr "")) ;;
  characters <- lift (py_len image_data) ;;
  if negb (truthy image_data) then
    response <- json_response (ContentError "No image data provided") 400 ;;
    ret (Some response)
  else
    let azure_api_key := getenv rt "AZURE_OPENAI_API_KEY" in
    let azure_endpoint := getenv rt "AZURE_OPENAI_ENDPOINT" in
    if not_set azure_api_key || not_set azure_endpoint then
      response <- json_response
                    (ContentErrorHelp "Azure credentials not found."
                       "Set AZURE_OPENAI_API_KEY, AZURE_OPENAI_ENDPOINT, and optionally AZURE_OPENAI_DEPLOYMENT_NAME environment variables")
                    401 ;;
      ret (Some response)
    else
      match image_data with
      | VStr text =>
          result <- restore_building_image rt text options address lat lon ;;
          response <- json_response (ContentOutcome result) 200 ;;
          ret (Some response)
      | _ => ret None
      end.

(** [api_restore_building(request)] *)
Definition api_restore_building (rt : Runtime) (request_json : Res PyVal) (s : State)
    : option (JSONResponse * State) :=
  match api_restore_try rt request_json s with
  | (Ok (Some response), s') => Some (response, s')
  | (Ok None, _) => None
  | (Raise e, s') =>
      Some ({| resp_content := ContentError (exc_msg e); resp_status := 500 |}, s')
  end.

(** [text.replace('"', '\\"')] *)
Fixpoint escape_quotes (text : string) : string :=
  match text with
  | EmptyString => EmptyString
  | String c rest =>
      if Ascii.eqb c (ascii_of_nat 34)
      then String (ascii_of_nat 92) (String c (escape_quotes rest))
      else String c (escape_quotes rest)
  end.

(** [v.replace('"', '\\"')]; only a string has [replace]. *)
Definition py_replace_quotes (v : PyVal) : Res string :=
  match v with
  | VStr text => Ok (escape_quotes text)
  | _ => Raise (mkExc AttributeError
           ("'" +:+ type_name v +:+ "' object has no attribute 'replace'"))
  end.

(** What of the results page depends on the record: whether the map
    section is there, the three paragraphs of the details, and the values
    written into the script.  The markup and the script text around them
    are fixed and left out. *)
Record ResultsView := {
  view_map_section : bool;
  view_analysis : string;
  view_address : option string;
  view_generated : string;
  script_original_image : string;
  script_restored_image : string;
  script_lat : string;
  script_lon : string;
  script_address : string;
  script_mly_token : string
}.

Inductive Page :=
| ResultNotFound
| RestorationResults (view : ResultsView).

(** [f"{v if v is not None else 'null'}"] for a coordinate of the record. *)
Definition script_coordinate (rt : Runtime) (v : option spec_float) : string :=
  match v with
  | Some f => py_repr rt (VFloat f)
  | None => "null"
  end.

(** [results_page(result_id)] *)
Definition results_page (rt : Runtime) (result_id : string) (s : State) : Res Page :=
  match restoration_results s !! result_id with
  | None => Ok ResultNotFound
  | Some result =>
      let latitude := res_location_lat result in
      let longitude := res_location_lon result in
      let has_location :=
        match latitude, longitude with
        | Some _, Some _ => true
        | _, _ => false
        end in
      let mapillary_token := getenv rt "MAPILLARY_TOKEN" in
      match py_replace_quotes (res_address result) with
      | Raise e => Raise e
      | Ok address =>
          Ok (RestorationResults {|
            view_map_section := has_location;
            view_analysis := "Building Analysis: " +:+ res_azure_analysis result;
            view_address :=
              if truthy (res_address result)
              then Some ("Address: " +:+ py_str rt (res_address result))
              else None;
            view_generated := "Generated: " +:+ res_created_at result;
            script_original_image := res_original_image result;
            script_restored_image := py_str rt (res_restored_image result);
            script_lat := script_coordinate rt latitude;
            script_lon := script_coordinate rt longitude;
            script_address := address;
            script_mly_token :=
              match mapillary_token with
              | Some token => token
              | None => "None"
              end |})
      end
  end.

(** ** Vocabulary of the further properties *)

Definition is_sleep (e : Event) : bool := match e with EvSleep _ => true | _ => false end.

(** What a call of the analysis adds to the trace: one completion request
    when the key is not cached and the credentials are there. *)
Definition analysis_events (rt : Runtime) (image_data : string) (s : State) : list Event :=
  match analysis_cache s !! image_key rt image_data with
  | Some _ => []
  | None => if credentials_missing rt then [] else [vision_event rt image_data]
  end.

(** What a call of the plan generation adds to the trace. *)
Definition plan_events (rt : Runtime) (prompt building_analysis : string) : list Event :=
  if credentials_missing rt then [] else [plan_event rt prompt building_analysis].

(** Every record of the store sits under its own id. *)
Definition keyed_by_id (s : State) : Prop :=
  forall k r, restoration_results s !! k = Some r -> res_id r = k.

Definition is_dict (v : PyVal) : bool :=
  match v with
  | VDict _ => true
  | _ => false
  end.

(** An integer [float] cannot take. *)
Definition too_large (rt : Runtime) (v : PyVal) : bool :=
  match v with
  | VInt z =>
      match float_of_int rt z with
      | Some _ => false
      | None => true
      end
  | _ => false
  end.

(** Whether [float(v)] raises. *)
Definition float_raises (rt : Runtime) (v : PyVal) : bool :=
  match py_float rt v with
  | Ok _ => false
  | Raise _ => true
  end.

(** The coordinates that get past the handler of the coordinates block:
    both are truthy, and the first one [float] is applied to without a
    [ValueError] or [TypeError] is an integer too large. *)
Definition location_overflows (rt : Runtime) (lat lon : PyVal) : bool :=
  truthy lat && truthy lon &&
  (too_large rt lat || (negb (float_raises rt lat) && too_large rt lon)).

(** An answer of the image-edit endpoint that carries [v]: status 200,
    a body that parses to a dictionary whose [data] is a list whose first
    element is a dictionary with [v] under [b64_json]. *)
Definition answers_with (rt : Runtime) (o : PostOutcome) (v : PyVal) : Prop :=
  exists text payload item others,
    o = PostResponds 200 text /\
    json_loads rt text = Some (VDict payload) /\
    payload !! "data" = Some (VList (VDict item :: others)) /\
    item !! "b64_json" = Some v.

(** A rejection of the image-edit endpoint on moderation grounds: a
    status other than 200 with the moderation error as body. *)
Definition rejects_as_blocked (rt : Runtime) (o : PostOutcome) : Prop :=
  exists status_code text,
    o = PostResponds status_code text /\
    status_code <> 200%Z /\
    moderation_blocked rt (VStr text) = true.

(** A character of the base64 alphabet. *)
Definition is_data (c : ascii) : bool :=
  match b64_value c with
  | Some _ => true
  | None => false
  end.

(** Base64 text as an encoder writes it: quads of alphabet characters,
    the last quad possibly ending in one or two pad characters. *)
Fixpoint canonical_b64 (s : string) : bool :=
  match s with
  | EmptyString => true
  | String a (String b (String c (String d rest))) =>
      is_data a && is_data b &&
      (if is_data c then
         if is_data d then canonical_b64 rest
         else Ascii.eqb d "=" && String.eqb rest ""
       else Ascii.eqb c "=" && Ascii.eqb d "=" && String.eqb rest "")
  | _ => false
  end.

(** ** Test doubles *)

Module Samples.

Definition dq : string := String (ascii_of_nat 34) EmptyString.

(** The body of a moderation rejection. *)
Definition blocked_text : string :=
  "{" +:+ dq +:+ "error" +:+ dq +:+ ": {" +:+ dq +:+ "code" +:+ dq +:+ ": " +:+
  dq +:+ "moderation_blocked" +:+ dq +:+ "}}".

Definition blocked_json : PyVal :=
  VDict {[ "error" := VDict {[ "code" := VStr "moderation_blocked" ]} ]}.

(** The body of a successful edit carrying the image [b64]. *)
Definition image_text (b64 : string) : string :=
  "{" +:+ dq +:+ "data" +:+ dq +:+ ": [{" +:+ dq +:+ "b64_json" +:+ dq +:+ ": " +:+
  dq +:+ b64 +:+ dq +:+ "}]}".

Definition image_json (b64 : string) : PyVal :=
  VDict {[ "data" := VList [VDict {[ "b64_json" := VStr b64 ]}] ]}.

(** A reader that knows the bodies above for the two images the samples
    use, and rejects every other text. *)
Definition loads (s : string) : option PyVal :=
  if String.eqb s blocked_text then Some blocked_json
  else if String.eqb s (image_text "cmVzdG9yZWQ=") then Some (image_json "cmVzdG9yZWQ=")
  else if String.eqb s (image_text "aGVsbG8=") then Some (image_json "aGVsbG8=")
  else None.

(** 40.7 and -74.0 as binary64, every other text rejected. *)
Definition to_float (s : string) : option spec_float :=
  if String.eqb s "40.7" then Some (S754_finite false 5728015776061850 (-47))
  else if String.eqb s "-74.0" then Some (S754_finite true 5207287069147136 (-46))
  else None.

Definition keys : gmap string string :=
  {[ "AZURE_OPENAI_API_KEY" := "key"; "AZURE_OPENAI_ENDPOINT" := "https://example.test" ]}.

Definition refused : Exception := mkExc ServiceError "connection refused".

Definition runtime (env : gmap string string) (vision plan : nat -> ChatOutcome)
    (edit : nat -> PostOutcome) : Runtime :=
  {| environ := env;
     py_hash := fun s => Z.of_nat (String.length s);
     py_repr := fun _ => "<object>";
     float_of_str := to_float;
     float_of_int := fun z => None;
     json_loads := loads;
     urandom16 := fun k => Z.of_nat k;
     strftime_now := fun _ => "2025-01-01 00:00:00";
     vision_service := vision;
     plan_service := plan;
     edit_service := edit |}.

(** Every remote call is answered. *)
Definition healthy : Runtime :=
  runtime keys
    (fun _ => ChatCompletes ["A brick warehouse."])
    (fun _ => ChatCompletes ["Repoint the brickwork."])
    (fun _ => PostResponds 200 (image_text "cmVzdG9yZWQ=")).

(** Every remote call raises. *)
Definition offline : Runtime :=
  runtime keys
    (fun _ => ChatRaises refused)
    (fun _ => ChatRaises refused)
    (fun _ => PostRaises refused).

(** No credentials in the environment. *)
Definition unconfigured : Runtime :=
  runtime ∅
    (fun _ => ChatRaises refused)
    (fun _ => ChatRaises refused)
    (fun _ => PostRaises refused).

(** The edit endpoint rejects the first request on moderation grounds and
    answers the second. *)
Definition blocked_once : Runtime :=
  runtime keys
    (fun _ => ChatCompletes ["A brick warehouse."])
    (fun _ => ChatCompletes ["Repoint the brickwork."])
    (fun k => match k with
              | O => PostResponds 400 blocked_text
              | _ => PostResponds 200 (image_text "cmVzdG9yZWQ=")
              end).

(** The edit endpoint answers 200 with a body that is not JSON. *)
Definition garbled : Runtime :=
  runtime keys
    (fun _ => ChatCompletes ["A brick warehouse."])
    (fun _ => ChatCompletes ["Repoint the brickwork."])
    (fun _ => PostResponds 200 "<html>Bad gateway</html>").

(** The edit endpoint answers 200 and sends the payload back. *)
Definition echoing : Runtime :=
  runtime keys
    (fun _ => ChatCompletes ["A brick warehouse."])
    (fun _ => ChatCompletes ["Repoint the brickwork."])
    (fun _ => PostResponds 200 (image_text "aGVsbG8=")).

(** The plan deployment raises; the other services answer. *)
Definition plan_down : Runtime :=
  runtime keys
    (fun _ => ChatCompletes ["A brick warehouse."])
    (fun _ => ChatRaises refused)
    (fun _ => PostResponds 200 (image_text "cmVzdG9yZWQ=")).

End Samples.

(** ** Vocabulary of the web routes *)

(** The five fields the endpoint reads from the request dictionary. *)
Definition request_image_data (data : gmap string PyVal) : PyVal :=
  option_or data "image_data" (VStr "").
Definition request_options (data : gmap string PyVal) : PyVal :=
  option_or data "options" (VDict ∅).
Definition request_address (data : gmap string PyVal) : PyVal :=
  option_or data "address" (VStr "").
Definition request_lat (data : gmap string PyVal) : PyVal :=
  option_or data "lat" (VStr "").
Definition request_lon (data : gmap string PyVal) : PyVal :=
  option_or data "lon" (VStr "").

(** The responses of the endpoint that do not come from the pipeline. *)
Definition NO_IMAGE_RESPONSE : JSONResponse :=
  {| resp_content := ContentError "No image data provided"; resp_status := 400 |}.

Definition NO_CREDENTIALS_RESPONSE : JSONResponse :=
  {| resp_content :=
       ContentErrorHelp "Azure credentials not found."
         "Set AZURE_OPENAI_API_KEY, AZURE_OPENAI_ENDPOINT, and optionally AZURE_OPENAI_DEPLOYMENT_NAME environment variables";
     resp_status := 401 |}.

Definition server_error (message : string) : JSONResponse :=
  {| resp_content := ContentError message; resp_status := 500 |}.

(** A runtime in which [float] reads "nan" as well. *)
Definition nan_reader : Runtime :=
  {| environ := Samples.keys;
     py_hash := fun s => Z.of_nat (String.length s);
     py_repr := fun _ => "<object>";
     float_of_str := fun s =>
       if String.eqb s "nan" then Some S754_nan else Samples.to_float s;
     float_of_int := fun z => None;
     json_loads := Samples.loads;
     urandom16 := fun k => Z.of_nat k;
     strftime_now := fun _ => "2025-01-01 00:00:00";
     vision_service := fun _ => ChatCompletes ["A brick warehouse."];
     plan_service := fun _ => ChatCompletes ["Repoint the brickwork."];
     edit_service := fun _ => PostResponds 200 (Samples.image_text "cmVzdG9yZWQ=") |}.

(** A value [len] accepts: a string, a list or a dictionary. *)
Definition sized (v : PyVal) : bool :=
  match v with
  | VStr _ | VList _ | VDict _ => true
  | _ => false
  end.

Definition is_str (v : PyVal) : bool :=
  match v with
  | VStr _ => true
  | _ => false
  end.

(** The [Address] paragraph of the page and the address written into its
    script, for an address given as a string or not at all. *)
Definition address_paragraph (address : PyVal) : option string :=
  match address with
  | VStr text => if String.eqb text "" then None else Some ("Address: " +:+ text)
  | _ => None
  end.

Definition address_literal (address : PyVal) : string :=
  match address with
  | VStr text => escape_quotes text
  | _ => ""
  end.

(** Runs the monad's operations, and nothing else. *)
Ltac mrun :=
  cbv beta iota delta
    [bind try_except try_except_of ret raise lift emit get_state sleep
     cache_store results_store fst snd].

(** * Properties *)

(** ** The monad *)

Lemma bind_run {A B} (m : M A) (k : A -> M B) s :
  bind m k s =
  match m s with
  | (Ok a, s') => k a s'
  | (Raise e, s') => (Raise e, s')
  end.
Proof. reflexivity. Qed.

Lemma try_except_run {A} (m : M A) (h : Exception -> M A) s :
  try_except m h s =
  match m s with
  | (Ok a, s') => (Ok a, s')
  | (Raise e, s') => h e s'
  end.
Proof. reflexivity. Qed.

Lemma count_events_app p tr1 tr2 :
  count_events p (tr1 ++ tr2) = (count_events p tr1 + count_events p tr2)%nat.
Proof.
  induction tr1 as [|e tr1 IH]; simpl; [reflexivity|].
  destruct (p e); simpl; rewrite IH; reflexivity.
Qed.

(** ** The vision analysis *)

(** One call of the analysis, path by path. *)
Lemma analyze_run rt image_data s :
  analyze_building_with_azure rt image_data s =
  match analysis_cache s !! image_key rt image_data with
  | Some cached => (Ok cached, s)
  | None =>
      if credentials_missing rt then (Ok ANALYSIS_FALLBACK, s)
      else
        match vision_service rt (count_events is_vision (trace s)) with
        | ChatCompletes (analysis :: _) =>
            (Ok analysis,
             {| analysis_cache := <[image_key rt image_data := analysis]> (analysis_cache s);
                restoration_results := restoration_results s;
                trace := trace s ++ [vision_event rt image_data] |})
        | _ => (Ok ANALYSIS_FALLBACK, log (vision_event rt image_data) s)
        end
  end.
Proof.
  unfold analyze_building_with_azure, image_key, credentials_missing, getenv, getenv_or.
  rewrite try_except_run, bind_run. cbn [get_state].
  destruct (analysis_cache s !! py_hash rt (substring 0 100 image_data)) as [cached|];
    [reflexivity|].
  destruct (not_set (environ rt !! "AZURE_OPENAI_API_KEY") ||
            not_set (environ rt !! "AZURE_OPENAI_ENDPOINT")); [reflexivity|].
  unfold complete_vision. rewrite !bind_run. cbn [get_state emit lift chat_outcome].
  destruct (vision_service rt (count_events is_vision (trace s))) as [e|[|c cs]];
    reflexivity.
Qed.

(** C8 (as the code has it): for every input, [analyze_building_with_azure]
    returns a text and never raises.  A cached entry is returned as it is;
    otherwise missing credentials, a raising completion call and a
    response without choices all yield the fixed fallback text, which is
    "Modern building with standard architectural features requiring
    restoration.", and only an answered call yields the model's text. *)
Theorem analyze_never_raises rt image_data s :
  exists text s',
    analyze_building_with_azure rt image_data s = (Ok text, s') /\
    match analysis_cache s !! image_key rt image_data with
    | Some cached => text = cached
    | None =>
        if credentials_missing rt then
          text = "Modern building with standard architectural features requiring restoration."
        else
          match vision_service rt (count_events is_vision (trace s)) with
          | ChatCompletes (analysis :: _) => text = analysis
          | ChatCompletes [] | ChatRaises _ =>
              text = "Modern building with standard architectural features requiring restoration."
          end
    end.
Proof.
  rewrite analyze_run.
  destruct (analysis_cache s !! image_key rt image_data) as [cached|]; [eauto|].
  destruct (credentials_missing rt); [eauto|].
  destruct (vision_service rt (count_events is_vision (trace s))) as [e|[|c cs]]; eauto.
Qed.

(** C8, the claim as written, fails: without credentials the analysis
    returns its own fallback text, which is not the text the claim quotes. *)
Lemma analyze_fallback_text_differs :
  analyze_building_with_azure Samples.unconfigured "aGVsbG8=" initial_state =
    (Ok "Modern building with standard architectural features requiring restoration.",
     initial_state) /\
  fst (analyze_building_with_azure Samples.unconfigured "aGVsbG8=" initial_state) <>
    Ok "generic building requiring restoration".
Proof. split; [reflexivity | discriminate]. Qed.

(** C7 (as the code has it): take two consecutive calls of the analysis on
    payloads with the same first hundred characters.  When the first call
    gets an analysis (from the cache or from an answered completion call),
    the second call returns that same analysis and leaves the state, trace
    included, as it was, so the pair issues at most one completion call.
    When the first call takes the fallback path, it returns the fallback
    text and leaves the cache as it was.  In every case the first call
    either leaves the cache as it was or adds the text of an answered
    completion call under the payload's key. *)
Theorem second_analysis_served_from_cache rt image1 image2 s :
  substring 0 100 image1 = substring 0 100 image2 ->
  let first := analyze_building_with_azure rt image1 s in
  let second := analyze_building_with_azure rt image2 (snd first) in
  (analysis_obtained rt image1 s = true ->
     second = first /\
     (count_events is_vision (trace (snd second)) <=
      count_events is_vision (trace s) + 1)%nat) /\
  (analysis_obtained rt image1 s = false ->
     fst first = Ok ANALYSIS_FALLBACK /\
     analysis_cache (snd first) = analysis_cache s) /\
  (analysis_cache (snd first) = analysis_cache s \/
   exists analysis others,
     credentials_missing rt = false /\
     vision_service rt (count_events is_vision (trace s)) =
       ChatCompletes (analysis :: others) /\
     analysis_cache (snd first) =
       <[image_key rt image1 := analysis]> (analysis_cache s)).
Proof.
  intros Hprefix first second. subst first second.
  assert (Hkey : image_key rt image2 = image_key rt image1)
    by (unfold image_key; rewrite Hprefix; reflexivity).
  unfold analysis_obtained.
  rewrite (analyze_run rt image1 s).
  destruct (analysis_cache s !! image_key rt image1) as [cached|] eqn:Hc.
  - split; [intros _ | split; [discriminate | left; reflexivity]].
    cbn [snd]. rewrite analyze_run, Hkey, Hc. split; [reflexivity|]. cbn [snd]. lia.
  - destruct (credentials_missing rt) eqn:Hm; cbn [negb andb].
    + split; [discriminate | split; [intros _; split; reflexivity | left; reflexivity]].
    + destruct (vision_service rt (count_events is_vision (trace s))) as [e|[|c cs]].
      * split; [discriminate | split; [intros _; split; reflexivity | left; reflexivity]].
      * split; [discriminate | split; [intros _; split; reflexivity | left; reflexivity]].
      * split; [intros _ | split; [discriminate | right; eauto]].
        cbn [snd]. rewrite analyze_run, Hkey. cbn [analysis_cache].
        rewrite lookup_insert_eq. split; [reflexivity|].
        cbn [snd trace]. rewrite count_events_app. cbn. lia.
Qed.

(** C7, a run of the theorem: two payloads of more than a hundred
    characters that differ only after the hundredth, first call answered. *)
Lemma second_analysis_served_from_cache_witness :
  let image1 := "iVBORw0KGgoAAAANSUhEUgAAAAEAAAABCAYAAAAfFcSJAAAADUlEQVR42mNkYPhfDwAChwGA60e6kgAAAABJRU5ErkJggg==AAAAAAAAAAAA" in
  let image2 := "iVBORw0KGgoAAAANSUhEUgAAAAEAAAABCAYAAAAfFcSJAAAADUlEQVR42mNkYPhfDwAChwGA60e6kgAAAABJRU5ErkJggg==AAAAAAAABBBB" in
  image1 <> image2 /\
  analyze_building_with_azure Samples.healthy image2
    (snd (analyze_building_with_azure Samples.healthy image1 initial_state)) =
  analyze_building_with_azure Samples.healthy image1 initial_state.
Proof.
  intros image1 image2. split; [discriminate|].
  exact (proj1 (proj1 (second_analysis_served_from_cache Samples.healthy image1 image2
                         initial_state eq_refl) eq_refl)).
Defined.

(** C7, the claim as written, fails: when the completion call raises,
    nothing is cached, and a second call on the same payload issues a
    second completion call. *)
Lemma failed_analysis_is_repeated :
  count_events is_vision
    (trace (snd (analyze_building_with_azure Samples.offline "aGVsbG8="
              (snd (analyze_building_with_azure Samples.offline "aGVsbG8=" initial_state)))))
  = 2%nat.
Proof. reflexivity. Qed.

(** ** The plan generation *)

(** One call of the plan generation, path by path: whatever goes wrong
    comes back as a raised exception. *)
Lemma generate_run rt prompt building_analysis s :
  generate_restoration_description_with_azure rt prompt building_analysis s =
  if credentials_missing rt then
    (Raise (mkExc PlainException "Azure credentials not available"), s)
  else
    (match plan_service rt (count_events is_plan (trace s)) with
     | ChatRaises e => Raise e
     | ChatCompletes [] => Raise (mkExc IndexError "list index out of range")
     | ChatCompletes (description :: _) => Ok description
     end,
     log (plan_event rt prompt building_analysis) s).
Proof.
  unfold generate_restoration_description_with_azure, credentials_missing, getenv, getenv_or.
  rewrite try_except_run.
  destruct (not_set (environ rt !! "AZURE_OPENAI_API_KEY") ||
            not_set (environ rt !! "AZURE_OPENAI_ENDPOINT")); [reflexivity|].
  unfold complete_plan. rewrite !bind_run. cbn [get_state emit lift chat_outcome].
  destruct (plan_service rt (count_events is_plan (trace s))) as [e|[|c cs]];
    reflexivity.
Qed.

(** ** The image edit *)

(** An attempt posts once, whatever comes back. *)
Lemma post_once_state rt req s :
  snd (_post_once rt req s) = log (EvPost req) s.
Proof.
  unfold _post_once, requests_post. mrun.
  destruct (edit_service rt (count_events is_post (trace s))) as [e|status_code text];
    mrun; [reflexivity|].
  destruct (status_code =? 200); [|reflexivity].
  destruct (py_json_loads rt (VStr text)) as [payload|e]; [|reflexivity].
  destruct (py_get payload "data" VNone) as [data|e]; [|reflexivity].
  destruct (truthy data); [|reflexivity].
  destruct (getitem_str payload "data") as [data'|e]; [|reflexivity].
  destruct (getitem_0 data') as [first|e]; [|reflexivity].
  destruct (getitem_str first "b64_json") as [b64|e]; reflexivity.
Qed.

(** Reading the error code touches nothing and never raises, and the code
    it finds equals "moderation_blocked" exactly for a text that parses
    to a dictionary whose [error] is a dictionary whose [code] is that
    string. *)
Lemma error_code_run rt result s :
  exists err_code,
    error_code rt result s = (Ok err_code, s) /\
    eq_str err_code "moderation_blocked" = moderation_blocked rt result.
Proof.
  unfold error_code, moderation_blocked, py_json_loads. mrun.
  destruct result as [| b | z | f | text | l | d];
    try (eexists; split; reflexivity).
  destruct (json_loads rt text) as [parsed|]; [|eexists; split; reflexivity].
  destruct parsed as [| b | z | f | t | l | body];
    try (eexists; split; reflexivity).
  cbn [py_get].
  destruct (body !! "error") as [error|] eqn:Herror; cbn.
  - destruct error as [| b | z | f | t | l | error];
      try (eexists; split; reflexivity).
    cbn. destruct (error !! "code") as [code|] eqn:Hcode; cbn.
    + eexists; split; [reflexivity|].
      destruct code; try reflexivity.
      unfold eq_str, ne_str. apply negb_involutive.
    + eexists; split; reflexivity.
  - rewrite lookup_empty. eexists; split; reflexivity.
Qed.

(** One call of the image edit, path by path. *)
Lemma create_restoration_mockup_run rt original description s :
  create_restoration_mockup rt original description s =
  if credentials_missing rt then (Ok (VStr original), s)
  else
    match b64decode original with
    | Raise e => (Raise e, s)
    | Ok image_bytes =>
        let req := edit_request rt image_bytes description in
        match _post_once rt req s with
        | (Raise e, s1) => (Raise e, s1)
        | (Ok first, s1) =>
            if attempt_blocked rt (Ok first) then
              match _post_once rt req (log (EvSleep 2) s1) with
              | (Raise e, s2) => (Raise e, s2)
              | (Ok second, s2) => (Ok (edited_or_original original second), s2)
              end
            else (Ok (edited_or_original original first), s1)
        end
    end.
Proof.
  unfold create_restoration_mockup, credentials_missing, getenv.
  rewrite (orb_comm (not_set (environ rt !! "AZURE_OPENAI_ENDPOINT"))).
  destruct (not_set (environ rt !! "AZURE_OPENAI_API_KEY") ||
            not_set (environ rt !! "AZURE_OPENAI_ENDPOINT")); [reflexivity|].
  rewrite bind_run. unfold lift at 1.
  destruct (b64decode original) as [image_bytes|e]; [|reflexivity].
  cbv zeta. rewrite bind_run.
  destruct (_post_once rt (edit_request rt image_bytes description) s)
    as [[[success result]|e] s1]; [|reflexivity].
  rewrite bind_run. unfold attempt_blocked, edited_or_original. cbn [fst snd].
  destruct success; cbn [negb].
  { mrun. destruct (true && truthy result); reflexivity. }
  rewrite bind_run.
  destruct (error_code_run rt result s1) as (err_code & -> & ->).
  destruct (moderation_blocked rt result).
  2: { mrun. reflexivity. }
  rewrite bind_run. cbn [sleep emit]. fold (log (EvSleep 2) s1).
  destruct (_post_once rt (edit_request rt image_bytes description) (log (EvSleep 2) s1))
    as [[second|e] s2]; [|reflexivity].
  mrun. destruct (_ && _); reflexivity.
Qed.

Lemma create_restoration_mockup_trace rt original description s :
  trace (snd (create_restoration_mockup rt original description s)) =
  (trace s ++ edit_events rt original description s)%list.
Proof.
  unfold edit_events. rewrite create_restoration_mockup_run.
  destruct (credentials_missing rt); [cbn; rewrite app_nil_r; reflexivity|].
  destruct (b64decode original) as [image_bytes|e];
    [|cbn; rewrite app_nil_r; reflexivity].
  cbv zeta.
  pose proof (post_once_state rt (edit_request rt image_bytes description) s) as H1.
  destruct (_post_once rt (edit_request rt image_bytes description) s)
    as [[first|e] s1]; cbn [fst snd] in *; subst s1; [|reflexivity].
  destruct (attempt_blocked rt (Ok first)); [|reflexivity].
  pose proof (post_once_state rt (edit_request rt image_bytes description)
                (log (EvSleep 2) (log (EvPost (edit_request rt image_bytes description)) s)))
    as H2.
  destruct (_post_once rt (edit_request rt image_bytes description)
              (log (EvSleep 2) (log (EvPost (edit_request rt image_bytes description)) s)))
    as [[second|e] s2]; cbn [fst snd] in *; subst s2;
    cbn [log trace]; rewrite <- !app_assoc; reflexivity.
Qed.

(** C2: a call of the image edit sends nothing when the credentials are
    missing or the payload does not decode.  Otherwise it posts its
    request once; if and only if that first attempt came back failed with
    a structured error whose code is "moderation_blocked", it sleeps for 2
    seconds and posts the same request once more, and whatever the second
    attempt brings, nothing further is sent.  So a call issues at most two
    edit requests. *)
Theorem moderation_retry_at_most_once rt original description s :
  let run := create_restoration_mockup rt original description s in
  trace (snd run) =
    (trace s ++
     (if credentials_missing rt then []
      else
        match b64decode original with
        | Raise _ => []
        | Ok image_bytes =>
            let req := edit_request rt image_bytes description in
            if attempt_blocked rt (fst (_post_once rt req s))
            then [EvPost req; EvSleep 2; EvPost req]
            else [EvPost req]
        end))%list /\
  (count_events is_post (trace (snd run)) <= count_events is_post (trace s) + 2)%nat.
Proof.
  intros run. subst run.
  rewrite create_restoration_mockup_trace. split; [reflexivity|].
  rewrite count_events_app. unfold edit_events.
  destruct (credentials_missing rt); [cbn; lia|].
  destruct (b64decode original) as [image_bytes|e]; [|cbn; lia].
  cbv zeta.
  destruct (attempt_blocked rt _); cbn; lia.
Qed.

(** A response with a status other than 200 is a failed attempt whose
    text is the body, so such a first response is retried exactly when its
    body reads as the moderation error. *)
Lemma failed_status_is_retried_iff_blocked
    rt original description image_bytes status_code text s :
  credentials_missing rt = false ->
  b64decode original = Ok image_bytes ->
  edit_service rt (count_events is_post (trace s)) = PostResponds status_code text ->
  status_code <> 200 ->
  let req := edit_request rt image_bytes description in
  trace (snd (create_restoration_mockup rt original description s)) =
    (trace s ++
     (if moderation_blocked rt (VStr text)
      then [EvPost req; EvSleep 2; EvPost req]
      else [EvPost req]))%list.
Proof.
  intros Hcred Hdecode Hreply Hstatus req. subst req.
  rewrite create_restoration_mockup_trace. unfold edit_events.
  rewrite Hcred, Hdecode. cbv zeta.
  assert (Hfirst : fst (_post_once rt (edit_request rt image_bytes description) s) =
                   Ok (false, VStr text)).
  { unfold _post_once, requests_post. mrun. rewrite Hreply. mrun.
    destruct (Z.eqb_spec status_code 200) as [->|_]; [contradiction|reflexivity]. }
  rewrite Hfirst. reflexivity.
Qed.

(** C2, a run: the first request is rejected on moderation grounds, the
    second is answered; the trace is post, sleep 2, the same post. *)
Example moderation_retry_run :
  let req := edit_request Samples.blocked_once "hello" "plan" in
  create_restoration_mockup Samples.blocked_once "aGVsbG8=" "plan" initial_state =
    (Ok (VStr "cmVzdG9yZWQ="),
     {| analysis_cache := ∅; restoration_results := ∅;
        trace := [EvPost req; EvSleep 2; EvPost req] |}).
Proof. vm_compute. reflexivity. Qed.

(** C3, where the code parts from the claim: with credentials in place, a
    payload that is not valid base64 makes [create_restoration_mockup]
    raise; the decoding is outside every [try] of the function. *)
Lemma mockup_raises_on_undecodable_payload :
  create_restoration_mockup Samples.healthy "a" "plan" initial_state =
    (Raise (mkExc BinasciiError
       "Invalid base64-encoded string: number of data characters (1) cannot be 1 more than a multiple of 4"),
     initial_state).
Proof. reflexivity. Qed.

(** The same on a well-formed payload: a 200 response whose body does not
    parse makes [resp.json()] raise inside [_post_once], outside its [try]. *)
Lemma mockup_raises_on_unreadable_body :
  fst (create_restoration_mockup Samples.garbled "aGVsbG8=" "plan" initial_state) =
    Raise (mkExc JSONDecodeError "Expecting value").
Proof. reflexivity. Qed.

(** ** The orchestrator *)

(** One run of the body of the outer [try], path by path. *)
Lemma restore_body_run rt result_id image_data options address lat lon s :
  restore_body rt result_id image_data options address lat lon s =
  match analyze_building_with_azure rt image_data s with
  | (Raise e, s1) => (Raise e, s1)
  | (Ok analysis, s1) =>
      match options with
      | VDict d =>
          let prompt := assembled_prompt rt d analysis in
          let planned := generate_restoration_description_with_azure rt prompt analysis s1 in
          let description := plan_or_fallback rt d (fst planned) in
          let edited := create_restoration_mockup rt image_data description (snd planned) in
          match coerce_location rt lat lon with
          | Raise e => (Raise e, snd edited)
          | Ok location =>
              let r := {|
                res_id := result_id;
                res_prompt := prompt;
                res_original_image := image_data;
                res_restored_image := fst (edit_or_fallback image_data (fst edited));
                res_options := options;
                res_azure_analysis := analysis;
                res_restoration_description := description;
                res_restoration_success := snd (edit_or_fallback image_data (fst edited));
                res_address := py_or address (VStr "");
                res_location_lat := fst location;
                res_location_lon := snd location;
                res_created_at :=
                  strftime_now rt (count_events is_strftime (trace (snd edited))) |} in
              (Ok r, stored result_id r (snd edited))
          end
      | _ =>
          (Raise (mkExc AttributeError
                    ("'" +:+ type_name options +:+ "' object has no attribute 'get'")),
           s1)
      end
  end.
Proof.
  unfold restore_body. mrun.
  destruct (analyze_building_with_azure rt image_data s) as [[analysis|e] s1];
    [|reflexivity].
  destruct options as [| b | z | f | t | l | d]; try reflexivity.
  cbn [py_get]. cbv zeta.
  fold (option_or d "style" (VStr "Modern renovation")).
  fold (option_or d "preserve_heritage" (VBool false)).
  fold (option_or d "landscaping" (VBool false)).
  fold (option_or d "lighting" (VBool false)).
  fold (option_or d "expand_building" (VBool false)).
  fold (assembled_prompt rt d analysis).
  unfold plan_or_fallback, edit_or_fallback, coerce_location, stored, strftime. mrun.
  destruct (generate_restoration_description_with_azure rt
              (assembled_prompt rt d analysis) analysis s1) as [[description|e] s2];
    cbn [fst snd];
    (destruct (create_restoration_mockup rt image_data _ s2) as [[restored|e'] s3];
     cbn [fst snd];
     (destruct (truthy lat && truthy lon); [|reflexivity];
      destruct (py_float rt lat) as [latitude|e1];
      [destruct (py_float rt lon) as [longitude|e2]; [reflexivity|]|];
      destruct (existsb _ _); reflexivity)).
Qed.

(** One call of the orchestrator, path by path. *)
Lemma restore_run rt image_data options address lat lon s :
  restore_building_image rt image_data options address lat lon s =
  if credentials_missing rt then (Ok CREDENTIALS_ERROR, s)
  else
    match restore_body rt (next_id rt s) image_data options address lat lon
            (log EvUuid4 s) with
    | (Ok r, s') => (Ok (ResultData r), s')
    | (Raise e, s') =>
        (Ok (PipelineError ("Restoration planning failed: " +:+ exc_msg e)
               PIPELINE_HELP (next_id rt s)), s')
    end.
Proof.
  unfold restore_building_image, credentials_missing, getenv, uuid4, next_id.
  destruct (not_set (environ rt !! "AZURE_OPENAI_API_KEY") ||
            not_set (environ rt !! "AZURE_OPENAI_ENDPOINT")); [reflexivity|].
  mrun. fold (log EvUuid4 s).
  destruct (restore_body rt _ image_data options address lat lon (log EvUuid4 s))
    as [[r|e] s']; reflexivity.
Qed.

Lemma uuid4_hex_nonempty r : uuid4_hex r <> "".
Proof. unfold uuid4_hex. cbn [hex_fixed]. discriminate. Qed.

(** None of the three stages touches the result store. *)
Lemma analyze_keeps_results rt image_data s :
  restoration_results (snd (analyze_building_with_azure rt image_data s)) =
  restoration_results s.
Proof.
  rewrite analyze_run.
  destruct (analysis_cache s !! image_key rt image_data); [reflexivity|].
  destruct (credentials_missing rt); [reflexivity|].
  destruct (vision_service rt _) as [e|[|c cs]]; reflexivity.
Qed.

Lemma generate_keeps_results rt prompt analysis s :
  restoration_results (snd (generate_restoration_description_with_azure rt prompt analysis s)) =
  restoration_results s.
Proof.
  rewrite generate_run. destruct (credentials_missing rt); reflexivity.
Qed.

Lemma mockup_keeps_results rt original description s :
  restoration_results (snd (create_restoration_mockup rt original description s)) =
  restoration_results s.
Proof.
  rewrite create_restoration_mockup_run.
  destruct (credentials_missing rt); [reflexivity|].
  destruct (b64decode original) as [image_bytes|e]; [|reflexivity].
  cbv zeta.
  pose proof (post_once_state rt (edit_request rt image_bytes description) s) as H1.
  destruct (_post_once rt (edit_request rt image_bytes description) s)
    as [[first|e] s1]; cbn [fst snd] in *; subst s1; [|reflexivity].
  destruct (attempt_blocked rt (Ok first)); [|reflexivity].
  pose proof (post_once_state rt (edit_request rt image_bytes description)
                (log (EvSleep 2) (log (EvPost (edit_request rt image_bytes description)) s)))
    as H2.
  destruct (_post_once rt (edit_request rt image_bytes description) _)
    as [[second|e] s2]; cbn [fst snd] in *; subst s2; reflexivity.
Qed.

(** The analysis never raises. *)
Lemma analyze_ok rt image_data s :
  exists analysis,
    analyze_building_with_azure rt image_data s =
    (Ok analysis, snd (analyze_building_with_azure rt image_data s)).
Proof.
  rewrite analyze_run.
  destruct (analysis_cache s !! image_key rt image_data); [eexists; reflexivity|].
  destruct (credentials_missing rt); [eexists; reflexivity|].
  destruct (vision_service rt _) as [e|[|c cs]]; eexists; reflexivity.
Qed.

Lemma coerce_location_textual rt lat lon :
  textual lat = true -> textual lon = true ->
  coerce_location rt lat lon = Ok (parsed_location rt lat lon).
Proof.
  unfold coerce_location, parsed_location.
  destruct lat as [| | | | la | |]; try discriminate;
    destruct lon as [| | | | lo | |]; try discriminate; intros _ _;
    cbn [truthy andb]; try reflexivity.
  - destruct (negb (String.eqb la "")); reflexivity.
  - destruct (String.eqb la ""); cbn [negb andb orb]; [reflexivity|].
    destruct (String.eqb lo ""); cbn [negb andb orb]; [reflexivity|].
    cbn [py_float].
    destruct (float_of_str rt la); [|reflexivity].
    destruct (float_of_str rt lo); reflexivity.
Qed.

(** Whatever the coordinates are, the block yields both or neither. *)
Lemma coerce_location_paired rt lat lon location :
  coerce_location rt lat lon = Ok location ->
  (exists latitude longitude, location = (Some latitude, Some longitude)) \/
  location = (None, None).
Proof.
  unfold coerce_location.
  destruct (truthy lat && truthy lon); [|intros [= <-]; right; reflexivity].
  destruct (py_float rt lat) as [latitude|e1].
  - destruct (py_float rt lon) as [longitude|e2].
    + intros [= <-]. left. eauto.
    + destruct (existsb _ _); [intros [= <-]; right; reflexivity | discriminate].
  - destruct (existsb _ _); [intros [= <-]; right; reflexivity | discriminate].
Qed.

Lemma ne_str_spec v s : ne_str v s = true <-> v <> VStr s.
Proof.
  destruct v as [| | | | s' | |]; cbn [ne_str];
    try (split; [discriminate | reflexivity]).
  destruct (String.eqb_spec s' s) as [->|Hne]; cbn [negb].
  - split; [discriminate | intros H; contradiction H; reflexivity].
  - split; [intros _ [= H]; contradiction | reflexivity].
Qed.

Lemma edit_or_fallback_flag image_data edited :
  snd (edit_or_fallback image_data edited) = true <->
  fst (edit_or_fallback image_data edited) <> VStr image_data.
Proof.
  destruct edited as [restored|e]; cbn [edit_or_fallback fst snd].
  - apply ne_str_spec.
  - split; [discriminate | intros H; contradiction H; reflexivity].
Qed.

(** C1: for a non-empty payload, [restore_building_image] returns and
    does not raise, whatever the other arguments are.  Without the API
    key or the endpoint it returns the credentials error and leaves the
    state alone.  With both, what it returns carries an id that is not
    empty; and when the options are a dictionary and the coordinates are
    strings or absent, as the signature types them, it is a result record
    stored under that id. *)
Theorem restore_returns_record_or_credentials_error
    rt image_data options address lat lon s :
  image_data <> "" ->
  exists outcome s',
    restore_building_image rt image_data options address lat lon s = (Ok outcome, s') /\
    if credentials_missing rt then
      outcome = CREDENTIALS_ERROR /\ s' = s
    else
      (exists id, outcome_id outcome = Some id /\ id <> "") /\
      (forall d : gmap string PyVal,
         options = VDict d ->
         textual lat = true ->
         textual lon = true ->
         exists r,
           outcome = ResultData r /\
           res_id r <> "" /\
           restoration_results s' !! res_id r = Some r).
Proof.
  intros _. rewrite restore_run.
  destruct (credentials_missing rt); [eauto|].
  destruct (restore_body rt (next_id rt s) image_data options address lat lon
              (log EvUuid4 s)) as [[r|e] s'] eqn:Hbody.
  - exists (ResultData r), s'. split; [reflexivity|].
    revert Hbody. rewrite restore_body_run.
    destruct (analyze_building_with_azure rt image_data (log EvUuid4 s))
      as [[analysis|e] s1]; [|discriminate].
    destruct options as [| | | | | | d]; try discriminate.
    cbv zeta.
    destruct (coerce_location rt lat lon) as [location|e]; [|discriminate].
    intros [= <- <-]. cbn [outcome_id res_id]. split.
    + exists (next_id rt s). split; [reflexivity | apply uuid4_hex_nonempty].
    + intros d' _ _ _. eexists. split; [reflexivity|]. cbn [res_id].
      split; [apply uuid4_hex_nonempty|].
      unfold stored. cbn [restoration_results]. apply lookup_insert_eq.
  - eexists _, s'. split; [reflexivity|]. cbn [outcome_id]. split.
    + exists (next_id rt s). split; [reflexivity | apply uuid4_hex_nonempty].
    + intros d -> Hlat Hlon. exfalso. revert Hbody. rewrite restore_body_run.
      destruct (analyze_ok rt image_data (log EvUuid4 s)) as [analysis ->].
      cbv zeta. rewrite (coerce_location_textual rt lat lon Hlat Hlon). discriminate.
Qed.

(** C1, a run with every service answering. *)
Lemma restore_returns_record_witness :
  exists r s',
    restore_building_image Samples.healthy "aGVsbG8="
      (VDict {[ "style" := VStr "Modern renovation"; "preserve_heritage" := VBool true ]})
      (VStr "123 Main St") (VStr "40.7") (VStr "-74.0") initial_state
    = (Ok (ResultData r), s') /\
    res_id r <> "" /\
    restoration_results s' !! res_id r = Some r.
Proof.
  destruct (restore_returns_record_or_credentials_error Samples.healthy "aGVsbG8="
              (VDict {[ "style" := VStr "Modern renovation";
                        "preserve_heritage" := VBool true ]})
              (VStr "123 Main St") (VStr "40.7") (VStr "-74.0") initial_state
              ltac:(discriminate))
    as (outcome & s' & Hrun & Hcase).
  change (credentials_missing Samples.healthy) with false in Hcase.
  destruct Hcase as [_ Hrecord].
  destruct (Hrecord _ eq_refl eq_refl eq_refl) as (r & -> & Hid & Hstored).
  exists r, s'. auto.
Defined.

(** The orchestrator never raises, whatever it is given. *)
Lemma restore_never_raises rt image_data options address lat lon s :
  exists outcome,
    fst (restore_building_image rt image_data options address lat lon s) = Ok outcome.
Proof.
  rewrite restore_run.
  destruct (credentials_missing rt); [eexists; reflexivity|].
  destruct (restore_body rt _ image_data options address lat lon (log EvUuid4 s))
    as [[r|e] s']; eexists; reflexivity.
Qed.

(** C4: a record that [restore_building_image] returns is the one stored
    under its id, its original image is the input payload, and its
    success flag is true exactly when its restored image differs from
    that payload; no response status enters the flag. *)
Theorem success_flag_compares_images
    rt image_data options address lat lon s r s' :
  restore_building_image rt image_data options address lat lon s =
    (Ok (ResultData r), s') ->
  restoration_results s' !! res_id r = Some r /\
  res_original_image r = image_data /\
  (res_restoration_success r = true <->
   res_restored_image r <> VStr (res_original_image r)).
Proof.
  rewrite restore_run.
  destruct (credentials_missing rt); [discriminate|].
  rewrite restore_body_run.
  destruct (analyze_building_with_azure rt image_data (log EvUuid4 s))
    as [[analysis|e] s1]; [|discriminate].
  destruct options as [| | | | | | d]; try discriminate.
  cbv zeta.
  destruct (coerce_location rt lat lon) as [location|e]; [|discriminate].
  intros [= <- <-]. cbn [res_id res_original_image res_restoration_success
                          res_restored_image].
  split; [|split].
  - unfold stored. cbn [restoration_results]. apply lookup_insert_eq.
  - reflexivity.
  - apply edit_or_fallback_flag.
Qed.

(** C4, a run: the endpoint answers 200 with the very image it was sent,
    and the stored record carries a false flag. *)
Lemma success_flag_witness :
  exists r s',
    restore_building_image Samples.echoing "aGVsbG8=" (VDict ∅) VNone VNone VNone initial_state
      = (Ok (ResultData r), s') /\
    res_restored_image r = VStr "aGVsbG8=" /\
    res_restoration_success r = false /\
    restoration_results s' !! res_id r = Some r.
Proof.
  eexists _, _. split; [vm_compute; reflexivity|].
  split; [reflexivity|]. split; [reflexivity|].
  eapply (proj1 (success_flag_compares_images Samples.echoing "aGVsbG8=" (VDict ∅)
                   VNone VNone VNone initial_state _ _ _)).
  Unshelve. vm_compute. reflexivity.
Defined.

(** C5: without credentials the orchestrator returns the credentials
    error before any identifier is drawn (the state, trace included, is
    untouched), and that error has no id.  With credentials, whenever the
    body of the outer [try] raises, the orchestrator returns the error
    dictionary whose message is built from the exception and whose id is
    the identifier drawn before the body ran; the id is not empty and the
    run leaves the result store as it was, so nothing is stored under an
    id that was free. *)
Theorem pipeline_error_carries_pregenerated_id
    rt image_data options address lat lon s :
  (credentials_missing rt = true ->
     restore_building_image rt image_data options address lat lon s =
       (Ok CREDENTIALS_ERROR, s) /\
     outcome_id CREDENTIALS_ERROR = None) /\
  (credentials_missing rt = false ->
     forall e s',
       restore_body rt (next_id rt s) image_data options address lat lon
         (log EvUuid4 s) = (Raise e, s') ->
       restore_building_image rt image_data options address lat lon s =
         (Ok (PipelineError ("Restoration planning failed: " +:+ exc_msg e)
                PIPELINE_HELP (next_id rt s)), s') /\
       next_id rt s <> "" /\
       restoration_results s' = restoration_results s /\
       (restoration_results s !! next_id rt s = None ->
        restoration_results s' !! next_id rt s = None)).
Proof.
  split; intros Hcred.
  - rewrite restore_run, Hcred. split; reflexivity.
  - intros e s' Hbody.
    assert (Hkeep : restoration_results s' = restoration_results s).
    { revert Hbody. rewrite restore_body_run.
      pose proof (analyze_keeps_results rt image_data (log EvUuid4 s)) as Ha.
      destruct (analyze_building_with_azure rt image_data (log EvUuid4 s))
        as [[analysis|e0] s1]; cbn [snd] in Ha.
      2: { intros [= _ <-]. exact Ha. }
      destruct options as [| | | | | | d];
        try (intros [= _ <-]; exact Ha).
      cbv zeta.
      destruct (coerce_location rt lat lon) as [location|e1]; [discriminate|].
      intros [= _ <-].
      rewrite mockup_keeps_results, generate_keeps_results. exact Ha. }
    rewrite restore_run, Hcred, Hbody.
    split; [reflexivity|]. split; [apply uuid4_hex_nonempty|].
    split; [exact Hkeep|]. rewrite Hkeep. auto.
Qed.

(** C5, a run: the options arrive as [null], so the first [options.get]
    raises inside the outer [try]. *)
Lemma pipeline_error_witness :
  restore_building_image Samples.healthy "aGVsbG8=" VNone VNone VNone VNone initial_state =
    (Ok (PipelineError
           "Restoration planning failed: 'NoneType' object has no attribute 'get'"
           PIPELINE_HELP "00000000000040008000000000000000"),
     snd (restore_body Samples.healthy "00000000000040008000000000000000" "aGVsbG8="
            VNone VNone VNone VNone (log EvUuid4 initial_state))) /\
  restoration_results
    (snd (restore_building_image Samples.healthy "aGVsbG8=" VNone VNone VNone VNone
            initial_state)) = ∅.
Proof.
  destruct (proj2 (pipeline_error_carries_pregenerated_id Samples.healthy "aGVsbG8="
                     VNone VNone VNone VNone initial_state) eq_refl
              (mkExc AttributeError "'NoneType' object has no attribute 'get'")
              (snd (restore_body Samples.healthy "00000000000040008000000000000000"
                      "aGVsbG8=" VNone VNone VNone VNone (log EvUuid4 initial_state)))
              eq_refl)
    as (Hrun & _ & Hkeep & _).
  split; [exact Hrun|]. rewrite Hrun. exact Hkeep.
Defined.

Lemma analyze_keeps_plan_count rt image_data s :
  count_events is_plan (trace (snd (analyze_building_with_azure rt image_data s))) =
  count_events is_plan (trace s).
Proof.
  rewrite analyze_run.
  destruct (analysis_cache s !! image_key rt image_data); [reflexivity|].
  destruct (credentials_missing rt); [reflexivity|].
  destruct (vision_service rt _) as [e|[|c cs]];
    cbn [snd log trace]; rewrite count_events_app; cbn; lia.
Qed.

(** In a run with credentials, a dictionary of options and textual
    coordinates, the body returns the record assembled from the three
    stages. *)
Lemma restore_dict_run rt image_data (d : gmap string PyVal) address lat lon s :
  credentials_missing rt = false ->
  textual lat = true ->
  textual lon = true ->
  let analyzed := analyze_building_with_azure rt image_data (log EvUuid4 s) in
  exists analysis,
    fst analyzed = Ok analysis /\
    let prompt := assembled_prompt rt d analysis in
    let planned :=
      generate_restoration_description_with_azure rt prompt analysis (snd analyzed) in
    let description := plan_or_fallback rt d (fst planned) in
    let edited := create_restoration_mockup rt image_data description (snd planned) in
    let r := {|
      res_id := next_id rt s;
      res_prompt := prompt;
      res_original_image := image_data;
      res_restored_image := fst (edit_or_fallback image_data (fst edited));
      res_options := VDict d;
      res_azure_analysis := analysis;
      res_restoration_description := description;
      res_restoration_success := snd (edit_or_fallback image_data (fst edited));
      res_address := py_or address (VStr "");
      res_location_lat := fst (parsed_location rt lat lon);
      res_location_lon := snd (parsed_location rt lat lon);
      res_created_at :=
        strftime_now rt (count_events is_strftime (trace (snd edited))) |} in
    restore_building_image rt image_data (VDict d) address lat lon s =
      (Ok (ResultData r), stored (next_id rt s) r (snd edited)).
Proof.
  intros Hcred Hlat Hlon analyzed. subst analyzed.
  rewrite restore_run, Hcred, restore_body_run.
  destruct (analyze_ok rt image_data (log EvUuid4 s)) as [analysis Ha].
  exists analysis. rewrite Ha. split; [reflexivity|].
  cbv zeta. cbn [snd]. rewrite (coerce_location_textual rt lat lon Hlat Hlon).
  reflexivity.
Qed.

(** C6: whenever the plan generation fails (no credentials, a raising
    completion call, or a response without choices) it raises to its
    caller.  Inside the orchestrator, run with credentials, a dictionary
    of options and textual coordinates, such a failure is absorbed: the
    record is still returned and stored, its plan text is the one-line
    template built from the chosen style, and the image edit was asked
    for with that text whenever the payload decodes. *)
Theorem plan_failure_is_absorbed rt :
  (forall prompt analysis s,
     credentials_missing rt || plan_unanswered rt s = true ->
     exists e,
       fst (generate_restoration_description_with_azure rt prompt analysis s) = Raise e) /\
  (forall image_data (d : gmap string PyVal) address lat lon s,
     credentials_missing rt = false ->
     textual lat = true ->
     textual lon = true ->
     plan_unanswered rt s = true ->
     exists r s',
       restore_building_image rt image_data (VDict d) address lat lon s =
         (Ok (ResultData r), s') /\
       res_restoration_description r =
         "Restoration plan for " +:+
         py_str rt (option_or d "style" (VStr "Modern renovation")) +:+
         " style renovation based on the analysis." /\
       restoration_results s' !! res_id r = Some r /\
       forall image_bytes,
         b64decode image_data = Ok image_bytes ->
         In (EvPost (edit_request rt image_bytes (res_restoration_description r)))
            (trace s')).
Proof.
  split.
  - intros prompt analysis s Hfail. rewrite generate_run.
    unfold plan_unanswered in Hfail.
    destruct (credentials_missing rt); [eexists; reflexivity|].
    cbn [orb] in Hfail.
    destruct (plan_service rt (count_events is_plan (trace s))) as [e|[|c cs]];
      [eexists; reflexivity | eexists; reflexivity | discriminate].
  - intros image_data d address lat lon s Hcred Hlat Hlon Hfail.
    destruct (restore_dict_run rt image_data d address lat lon s Hcred Hlat Hlon)
      as (analysis & Ha & Hrun).
    cbv zeta in Hrun.
    pose proof (analyze_keeps_plan_count rt image_data (log EvUuid4 s)) as Hcount.
    set (s1 := snd (analyze_building_with_azure rt image_data (log EvUuid4 s))) in *.
    assert (Hplan :
      fst (generate_restoration_description_with_azure rt
             (assembled_prompt rt d analysis) analysis s1) <> Ok "" /\
      plan_or_fallback rt d
        (fst (generate_restoration_description_with_azure rt
                (assembled_prompt rt d analysis) analysis s1)) =
      plan_fallback rt (option_or d "style" (VStr "Modern renovation"))).
    { rewrite generate_run, Hcred. cbn [fst].
      assert (Hsame : count_events is_plan (trace s1) = count_events is_plan (trace s)).
      { rewrite Hcount. cbn [log trace]. rewrite count_events_app. cbn. lia. }
      rewrite Hsame. unfold plan_unanswered in Hfail.
      destruct (plan_service rt (count_events is_plan (trace s))) as [e|[|c cs]];
        [split; [discriminate | reflexivity] ..| discriminate]. }
    destruct Hplan as [_ Hplan]. rewrite Hplan in Hrun.
    eexists _, _. split; [exact Hrun|].
    cbn [res_restoration_description res_id].
    split; [reflexivity|]. split.
    + unfold stored. cbn [restoration_results]. apply lookup_insert_eq.
    + intros image_bytes Hdecode. unfold stored. cbn [trace].
      rewrite create_restoration_mockup_trace. unfold edit_events.
      rewrite Hcred, Hdecode. cbv zeta.
      apply in_or_app. left. apply in_or_app. right.
      destruct (attempt_blocked rt _); left; reflexivity.
Qed.

(** C6, a run: the plan call raises, the record is stored with the
    templated plan and the edited image. *)
Lemma plan_failure_witness :
  exists r s',
    restore_building_image Samples.plan_down "aGVsbG8="
      (VDict {[ "style" := VStr "Luxury upgrade" ]}) VNone VNone VNone initial_state
      = (Ok (ResultData r), s') /\
    res_restoration_description r =
      "Restoration plan for Luxury upgrade style renovation based on the analysis." /\
    restoration_results s' !! res_id r = Some r.
Proof.
  destruct (proj2 (plan_failure_is_absorbed Samples.plan_down) "aGVsbG8="
              {[ "style" := VStr "Luxury upgrade" ]} VNone VNone VNone initial_state
              eq_refl eq_refl eq_refl eq_refl)
    as (r & s' & Hrun & Hplan & Hstored & _).
  exists r, s'. split; [exact Hrun|]. split; [exact Hplan | exact Hstored].
Defined.

(** C9: in a run with credentials and a dictionary of options, whatever
    strings (or nothing) arrive as latitude and longitude, the
    orchestrator returns a stored record.  If either coordinate is
    absent, empty or not a number, the record has neither latitude nor
    longitude; otherwise it has both, as [float] read them.  It never has
    one without the other. *)
Theorem coordinates_never_crash rt image_data (d : gmap string PyVal) address lat lon s :
  credentials_missing rt = false ->
  textual lat = true ->
  textual lon = true ->
  exists r s',
    restore_building_image rt image_data (VDict d) address lat lon s =
      (Ok (ResultData r), s') /\
    restoration_results s' !! res_id r = Some r /\
    (if unusable rt lat || unusable rt lon then
       res_location_lat r = None /\ res_location_lon r = None
     else
       exists la lo latitude longitude,
         lat = VStr la /\ lon = VStr lo /\
         float_of_str rt la = Some latitude /\
         float_of_str rt lo = Some longitude /\
         res_location_lat r = Some latitude /\
         res_location_lon r = Some longitude) /\
    (res_location_lat r = None <-> res_location_lon r = None).
Proof.
  intros Hcred Hlat Hlon.
  destruct (restore_dict_run rt image_data d address lat lon s Hcred Hlat Hlon)
    as (analysis & Ha & Hrun).
  cbv zeta in Hrun.
  eexists _, _. split; [exact Hrun|].
  cbn [res_id res_location_lat res_location_lon].
  split; [unfold stored; cbn [restoration_results]; apply lookup_insert_eq|].
  unfold parsed_location, unusable.
  destruct lat as [| | | | la | |]; try discriminate;
    destruct lon as [| | | | lo | |]; try discriminate;
    cbn [orb fst snd]; try (rewrite ?orb_true_r; cbn [fst snd]; easy).
  destruct (String.eqb la ""); cbn [orb fst snd]; [easy|].
  destruct (String.eqb lo ""); cbn [orb fst snd];
    [rewrite orb_true_r; cbn [fst snd]; easy|].
  destruct (float_of_str rt la) as [latitude|] eqn:Hla; cbn [orb fst snd]; [|easy].
  destruct (float_of_str rt lo) as [longitude|] eqn:Hlo; cbn [orb fst snd]; [|easy].
  split.
  - exists la, lo, latitude, longitude. repeat split; assumption || reflexivity.
  - split; discriminate.
Qed.

(** C9, a run: a latitude that is not a number next to a good longitude. *)
Lemma coordinates_witness :
  exists r s',
    restore_building_image Samples.healthy "aGVsbG8=" (VDict ∅) (VStr "123 Main St")
      (VStr "north") (VStr "-74.0") initial_state = (Ok (ResultData r), s') /\
    res_location_lat r = None /\ res_location_lon r = None.
Proof.
  destruct (coordinates_never_crash Samples.healthy "aGVsbG8=" ∅ (VStr "123 Main St")
              (VStr "north") (VStr "-74.0") initial_state eq_refl eq_refl eq_refl)
    as (r & s' & Hrun & _ & Hloc & _).
  exists r, s'. split; [exact Hrun | exact Hloc].
Defined.

(** Whatever the arguments are, a returned record has both coordinates
    or neither. *)
Lemma location_is_paired rt image_data options address lat lon s r s' :
  restore_building_image rt image_data options address lat lon s =
    (Ok (ResultData r), s') ->
  (res_location_lat r = None <-> res_location_lon r = None).
Proof.
  rewrite restore_run.
  destruct (credentials_missing rt); [discriminate|].
  rewrite restore_body_run.
  destruct (analyze_building_with_azure rt image_data (log EvUuid4 s))
    as [[analysis|e] s1]; [|discriminate].
  destruct options as [| | | | | | d]; try discriminate.
  cbv zeta.
  destruct (coerce_location rt lat lon) as [location|e] eqn:Hloc; [|discriminate].
  intros [= <- <-]. cbn [res_location_lat res_location_lon].
  destruct (coerce_location_paired rt lat lon location Hloc)
    as [(latitude & longitude & ->)| ->]; cbn [fst snd]; split; easy.
Qed.

(** C10: in a run with credentials, a dictionary of options and textual
    coordinates, a record is returned and stored whatever the dictionary
    holds.  If it has no "style" key, the prompt's style instruction names
    "Modern renovation", and so does the templated plan when the plan
    generation fails.  If it has a "style" string, that string is used as
    it is, in the list of styles or not. *)
Theorem style_defaults_to_modern_renovation
    rt image_data (d : gmap string PyVal) address lat lon s :
  credentials_missing rt = false ->
  textual lat = true ->
  textual lon = true ->
  exists r s' additional_instructions,
    restore_building_image rt image_data (VDict d) address lat lon s =
      (Ok (ResultData r), s') /\
    restoration_results s' !! res_id r = Some r /\
    (d !! "style" = None ->
       res_prompt r =
         RESTORATION_PROMPT "Use a Modern renovation style for the restoration."
           additional_instructions /\
       (plan_unanswered rt s = true ->
          res_restoration_description r =
            "Restoration plan for Modern renovation style renovation based on the analysis.")) /\
    (forall style,
       d !! "style" = Some (VStr style) ->
       res_prompt r =
         RESTORATION_PROMPT ("Use a " +:+ style +:+ " style for the restoration.")
           additional_instructions).
Proof.
  intros Hcred Hlat Hlon.
  destruct (restore_dict_run rt image_data d address lat lon s Hcred Hlat Hlon)
    as (analysis & Ha & Hrun).
  cbv zeta in Hrun.
  eexists _, _, _. split; [exact Hrun|].
  cbn [res_id res_prompt res_restoration_description].
  split; [unfold stored; cbn [restoration_results]; apply lookup_insert_eq|].
  unfold assembled_prompt. split.
  - intros Hstyle. unfold option_or at 1. rewrite Hstyle. split; [reflexivity|].
    intros Hfail.
    pose proof (analyze_keeps_plan_count rt image_data (log EvUuid4 s)) as Hcount.
    rewrite generate_run, Hcred. cbn [fst].
    replace (count_events is_plan
               (trace (snd (analyze_building_with_azure rt image_data (log EvUuid4 s)))))
      with (count_events is_plan (trace s))
      by (rewrite Hcount; cbn [log trace]; rewrite count_events_app; cbn; lia).
    unfold plan_unanswered in Hfail. unfold plan_or_fallback, plan_fallback, option_or.
    rewrite Hstyle.
    destruct (plan_service rt (count_events is_plan (trace s))) as [e|[|c cs]];
      [reflexivity | reflexivity | discriminate].
  - intros style Hstyle. unfold option_or at 1. rewrite Hstyle. reflexivity.
Qed.

(** C10, a run: empty options and a plan deployment that raises. *)
Lemma style_default_witness :
  exists r s',
    restore_building_image Samples.plan_down "aGVsbG8=" (VDict ∅) VNone VNone VNone initial_state =
      (Ok (ResultData r), s') /\
    res_prompt r =
      RESTORATION_PROMPT "Use a Modern renovation style for the restoration."
        "Building analysis: A brick warehouse." /\
    res_restoration_description r =
      "Restoration plan for Modern renovation style renovation based on the analysis.".
Proof.
  destruct (style_defaults_to_modern_renovation Samples.plan_down "aGVsbG8=" ∅ VNone VNone VNone
              initial_state eq_refl eq_refl eq_refl)
    as (r & s' & additional & Hrun & _ & Hdefault & _).
  destruct (Hdefault eq_refl) as [Hprompt Hplan].
  exists r, s'. split; [exact Hrun|]. split; [|exact (Hplan eq_refl)].
  revert Hrun. vm_compute. intros [= <- _]. reflexivity.
Defined.

(** C10, a run with a style outside the list: the record is produced and
    the prompt names that style. *)
Example unlisted_style_is_accepted :
  ~ In "Brutalist" RESTORATION_STYLES /\
  exists r s',
    restore_building_image Samples.healthy "aGVsbG8="
      (VDict {[ "style" := VStr "Brutalist" ]}) VNone VNone VNone initial_state =
      (Ok (ResultData r), s') /\
    res_prompt r =
      RESTORATION_PROMPT "Use a Brutalist style for the restoration."
        "Building analysis: A brick warehouse.".
Proof.
  split.
  - cbn. intros H. repeat (destruct H as [H|H]; [discriminate|]). exact H.
  - eexists _, _. split; vm_compute; reflexivity.
Qed.

Lemma post_once_listed_failure rt req s :
  listed_failure rt (edit_service rt (count_events is_post (trace s))) = true ->
  exists result, fst (_post_once rt req s) = Ok (false, result).
Proof.
  unfold listed_failure, _post_once, requests_post. mrun.
  destruct (edit_service rt (count_events is_post (trace s))) as [e|status_code text];
    mrun; [eexists; reflexivity|].
  destruct (status_code =? 200); cbn [negb orb]; [|eexists; reflexivity].
  unfold py_json_loads.
  destruct (json_loads rt text) as [[| | | | | | payload]|]; try discriminate.
  cbn [py_get].
  destruct (truthy (default VNone (payload !! "data"))); [discriminate|].
  eexists; reflexivity.
Qed.

(** C3, the part the code keeps: without credentials the original comes
    back and nothing is sent; with credentials and a payload that
    decodes, the original comes back whenever every attempt made ends in
    one of the listed failures. *)
Lemma mockup_falls_back_on_listed_failures rt original description s :
  (credentials_missing rt = true ->
     create_restoration_mockup rt original description s = (Ok (VStr original), s)) /\
  (forall image_bytes,
     credentials_missing rt = false ->
     b64decode original = Ok image_bytes ->
     listed_failure rt (edit_service rt (count_events is_post (trace s))) = true ->
     listed_failure rt (edit_service rt (S (count_events is_post (trace s)))) = true ->
     fst (create_restoration_mockup rt original description s) = Ok (VStr original)).
Proof.
  split.
  - intros Hcred. rewrite create_restoration_mockup_run, Hcred. reflexivity.
  - intros image_bytes Hcred Hdecode Hfirst Hsecond.
    rewrite create_restoration_mockup_run, Hcred, Hdecode. cbv zeta.
    set (req := edit_request rt image_bytes description).
    pose proof (post_once_state rt req s) as Hs1.
    destruct (post_once_listed_failure rt req s Hfirst) as [result1 H1].
    destruct (_post_once rt req s) as [r1 s1]. cbn [fst snd] in *. subst r1 s1.
    cbn [attempt_blocked].
    destruct (moderation_blocked rt result1); [|reflexivity].
    assert (Hnext : listed_failure rt
              (edit_service rt
                 (count_events is_post (trace (log (EvSleep 2) (log (EvPost req) s))))) = true).
    { cbn [log trace]. rewrite !count_events_app. cbn.
      replace (count_events is_post (trace s) + 1 + 0)%nat
        with (S (count_events is_post (trace s))) by lia.
      exact Hsecond. }
    destruct (post_once_listed_failure rt req _ Hnext) as [result2 H2].
    destruct (_post_once rt req (log (EvSleep 2) (log (EvPost req) s))) as [r2 s2].
    cbn [fst] in H2. subst r2. reflexivity.
Qed.

(** C3, the record: whatever the image edit does, the orchestrator's own
    handler keeps it inside; when the edit raises or returns the
    original, the record carries the original image and a false flag. *)
Lemma failed_edit_keeps_original image_data edited :
  (forall restored, edited = Ok restored -> restored = VStr image_data) ->
  edit_or_fallback image_data edited = (VStr image_data, false).
Proof.
  intros H. destruct edited as [restored|e]; cbn [edit_or_fallback]; [|reflexivity].
  rewrite (H restored eq_refl). cbn [ne_str]. rewrite String.eqb_refl. reflexivity.
Qed.

(** C3, a run of the orchestrator on the payload that makes the image
    edit raise: the record is stored with the original image and a false
    flag. *)
Example undecodable_payload_record :
  exists r s',
    restore_building_image Samples.healthy "a" (VDict ∅) VNone VNone VNone initial_state =
      (Ok (ResultData r), s') /\
    res_restored_image r = VStr "a" /\
    res_restoration_success r = false.
Proof. eexists _, _. repeat split; vm_compute; reflexivity. Qed.

(** * Further properties *)

(** ** What the stages leave alone *)

Lemma analyze_trace rt image_data s :
  trace (snd (analyze_building_with_azure rt image_data s)) =
  (trace s ++ analysis_events rt image_data s)%list.
Proof.
  unfold analysis_events. rewrite analyze_run.
  destruct (analysis_cache s !! image_key rt image_data);
    [cbn; rewrite app_nil_r; reflexivity|].
  destruct (credentials_missing rt); [cbn; rewrite app_nil_r; reflexivity|].
  destruct (vision_service rt _) as [e|[|c cs]]; reflexivity.
Qed.

Lemma generate_trace rt prompt analysis s :
  trace (snd (generate_restoration_description_with_azure rt prompt analysis s)) =
  (trace s ++ plan_events rt prompt analysis)%list.
Proof.
  unfold plan_events. rewrite generate_run.
  destruct (credentials_missing rt); [cbn; rewrite app_nil_r; reflexivity|].
  reflexivity.
Qed.

Lemma generate_keeps_cache rt prompt analysis s :
  analysis_cache (snd (generate_restoration_description_with_azure rt prompt analysis s)) =
  analysis_cache s.
Proof.
  rewrite generate_run. destruct (credentials_missing rt); reflexivity.
Qed.

Lemma mockup_keeps_cache rt original description s :
  analysis_cache (snd (create_restoration_mockup rt original description s)) =
  analysis_cache s.
Proof.
  rewrite create_restoration_mockup_run.
  destruct (credentials_missing rt); [reflexivity|].
  destruct (b64decode original) as [image_bytes|e]; [|reflexivity].
  cbv zeta.
  pose proof (post_once_state rt (edit_request rt image_bytes description) s) as H1.
  destruct (_post_once rt (edit_request rt image_bytes description) s)
    as [[first|e] s1]; cbn [fst snd] in *; subst s1; [|reflexivity].
  destruct (attempt_blocked rt (Ok first)); [|reflexivity].
  pose proof (post_once_state rt (edit_request rt image_bytes description)
                (log (EvSleep 2) (log (EvPost (edit_request rt image_bytes description)) s)))
    as H2.
  destruct (_post_once rt (edit_request rt image_bytes description) _)
    as [[second|e] s2]; cbn [fst snd] in *; subst s2; reflexivity.
Qed.

(** The analysis writes the cache only under a key that was free. *)
Lemma analyze_keeps_cached rt image_data s k v :
  analysis_cache s !! k = Some v ->
  analysis_cache (snd (analyze_building_with_azure rt image_data s)) !! k = Some v.
Proof.
  intros Hk. rewrite analyze_run.
  destruct (analysis_cache s !! image_key rt image_data) as [cached|] eqn:Hc;
    [exact Hk|].
  destruct (credentials_missing rt); [exact Hk|].
  destruct (vision_service rt _) as [e|[|c cs]]; cbn [snd log analysis_cache];
    try exact Hk.
  rewrite lookup_insert_ne; [exact Hk|].
  intros Heq. rewrite Heq, Hk in Hc. discriminate.
Qed.

(** The cache after a run of the body is the cache after its analysis. *)
Lemma restore_body_cache rt result_id image_data options address lat lon s :
  analysis_cache (snd (restore_body rt result_id image_data options address lat lon s)) =
  analysis_cache (snd (analyze_building_with_azure rt image_data s)).
Proof.
  rewrite restore_body_run.
  destruct (analyze_building_with_azure rt image_data s) as [[analysis|e] s1];
    [|reflexivity].
  destruct options as [| | | | | | d]; try reflexivity.
  cbv zeta.
  destruct (coerce_location rt lat lon) as [location|e];
    cbn [snd stored analysis_cache];
    rewrite mockup_keeps_cache, generate_keeps_cache; reflexivity.
Qed.

Lemma restore_cache rt image_data options address lat lon s :
  analysis_cache (snd (restore_building_image rt image_data options address lat lon s)) =
  if credentials_missing rt then analysis_cache s
  else analysis_cache (snd (analyze_building_with_azure rt image_data (log EvUuid4 s))).
Proof.
  rewrite restore_run.
  destruct (credentials_missing rt); [reflexivity|].
  rewrite <- (restore_body_cache rt (next_id rt s) image_data options address lat lon).
  destruct (restore_body rt _ image_data options address lat lon (log EvUuid4 s))
    as [[r|e] s']; reflexivity.
Qed.

(** X1: an analysis that is cached stays cached, under the same key and
    with the same text, through any call of the analysis and through any
    run of the orchestrator. *)
Theorem cached_analysis_is_never_replaced
    rt image_data options address lat lon s k v :
  analysis_cache s !! k = Some v ->
  analysis_cache (snd (analyze_building_with_azure rt image_data s)) !! k = Some v /\
  analysis_cache (snd (restore_building_image rt image_data options address lat lon s)) !! k
    = Some v.
Proof.
  intros Hk. split; [apply analyze_keeps_cached; exact Hk|].
  rewrite restore_cache.
  destruct (credentials_missing rt); [exact Hk|].
  apply analyze_keeps_cached. exact Hk.
Qed.

(** X1, a run: the entry a first request caches survives a second request
    on another payload. *)
Lemma cached_analysis_witness :
  let s1 := snd (restore_building_image Samples.healthy "aGVsbG8=" (VDict ∅)
                   VNone VNone VNone initial_state) in
  analysis_cache
    (snd (restore_building_image Samples.blocked_once "cmVzdG9yZWQh" VNone VNone VNone VNone s1))
    !! 8%Z = Some "A brick warehouse.".
Proof.
  intros s1.
  exact (proj2 (cached_analysis_is_never_replaced Samples.blocked_once "cmVzdG9yZWQh"
                  VNone VNone VNone VNone s1 8%Z "A brick warehouse." eq_refl)).
Defined.

(** ** The result store *)

Lemma restore_store rt image_data options address lat lon s :
  restoration_results (snd (restore_building_image rt image_data options address lat lon s)) =
  match fst (restore_building_image rt image_data options address lat lon s) with
  | Ok (ResultData r) => <[res_id r := r]> (restoration_results s)
  | _ => restoration_results s
  end.
Proof.
  rewrite restore_run.
  destruct (credentials_missing rt); [reflexivity|].
  rewrite restore_body_run.
  pose proof (analyze_keeps_results rt image_data (log EvUuid4 s)) as Ha.
  destruct (analyze_building_with_azure rt image_data (log EvUuid4 s))
    as [[analysis|e] s1]; cbn [snd] in Ha; [|exact Ha].
  destruct options as [| | | | | | d]; try exact Ha.
  cbv zeta.
  destruct (coerce_location rt lat lon) as [location|e];
    cbn [fst snd stored restoration_results res_id];
    rewrite mockup_keeps_results, generate_keeps_results, Ha; reflexivity.
Qed.

(** X2: a run of the orchestrator changes the result store in one way
    only: when it returns a record, that record is put under its own id;
    in every other case the store is left as it was.  So no other entry
    is touched, and a store in which every record sits under its own id
    stays such a store. *)
Theorem store_gains_only_the_returned_record
    rt image_data options address lat lon s :
  let run := restore_building_image rt image_data options address lat lon s in
  restoration_results (snd run) =
    match fst run with
    | Ok (ResultData r) => <[res_id r := r]> (restoration_results s)
    | _ => restoration_results s
    end /\
  (forall k,
     k <> next_id rt s ->
     restoration_results (snd run) !! k = restoration_results s !! k) /\
  (keyed_by_id s -> keyed_by_id (snd run)).
Proof.
  intros run. subst run.
  pose proof (restore_store rt image_data options address lat lon s) as Hstore.
  split; [exact Hstore|].
  assert (Hid : forall r,
            fst (restore_building_image rt image_data options address lat lon s) =
              Ok (ResultData r) -> res_id r = next_id rt s).
  { intros r. rewrite restore_run.
    destruct (credentials_missing rt); [discriminate|].
    rewrite restore_body_run.
    destruct (analyze_building_with_azure rt image_data (log EvUuid4 s))
      as [[analysis|e] s1]; [|discriminate].
    destruct options as [| | | | | | d]; try discriminate.
    cbv zeta.
    destruct (coerce_location rt lat lon) as [location|e]; [|discriminate].
    intros [= <-]. reflexivity. }
  unfold keyed_by_id. rewrite Hstore.
  destruct (fst (restore_building_image rt image_data options address lat lon s))
    as [[r|error help|error help id]|e]; split; try (intros; reflexivity);
    try (intros Hkeyed; exact Hkeyed).
  - intros k Hk. rewrite lookup_insert_ne; [reflexivity|].
    rewrite (Hid r eq_refl). congruence.
  - intros Hkeyed k r'. destruct (decide (res_id r = k)) as [<-|Hne].
    + rewrite lookup_insert_eq. intros [= <-]. reflexivity.
    + rewrite lookup_insert_ne by exact Hne. apply Hkeyed.
Qed.

(** X2, a run on a store that already holds a record: the second request
    keeps the invariant. *)
Lemma store_invariant_witness :
  let s1 := snd (restore_building_image Samples.healthy "aGVsbG8=" (VDict ∅)
                   VNone VNone VNone initial_state) in
  keyed_by_id
    (snd (restore_building_image Samples.healthy "cmVzdG9yZWQh" (VDict ∅)
            VNone VNone VNone s1)).
Proof.
  intros s1.
  refine (proj2 (proj2 (store_gains_only_the_returned_record Samples.healthy "cmVzdG9yZWQh"
                          (VDict ∅) VNone VNone VNone s1)) _).
  refine (proj2 (proj2 (store_gains_only_the_returned_record Samples.healthy "aGVsbG8="
                          (VDict ∅) VNone VNone VNone initial_state)) _).
  intros k r. cbn [initial_state restoration_results]. rewrite lookup_empty. discriminate.
Defined.

(** ** The calls a request makes *)

(** What a run of the body adds to the trace. *)
Lemma restore_body_trace rt result_id image_data options address lat lon s :
  let analyzed := analyze_building_with_azure rt image_data s in
  trace (snd (restore_body rt result_id image_data options address lat lon s)) =
  (trace s ++ analysis_events rt image_data s ++
   match fst analyzed, options with
   | Ok analysis, VDict d =>
       let prompt := assembled_prompt rt d analysis in
       let planned :=
         generate_restoration_description_with_azure rt prompt analysis (snd analyzed) in
       let description := plan_or_fallback rt d (fst planned) in
       plan_events rt prompt analysis ++
       edit_events rt image_data description (snd planned) ++
       match coerce_location rt lat lon with
       | Ok _ => [EvStrftime]
       | Raise _ => []
       end
   | _, _ => []
   end)%list.
Proof.
  intros analyzed. subst analyzed. rewrite restore_body_run.
  pose proof (analyze_trace rt image_data s) as Ha.
  destruct (analyze_building_with_azure rt image_data s) as [[analysis|e] s1];
    cbn [fst snd] in *; [|rewrite Ha, app_nil_r; reflexivity].
  destruct options as [| | | | | | d];
    try (cbn [snd]; rewrite Ha, app_nil_r; reflexivity).
  cbv zeta.
  destruct (coerce_location rt lat lon) as [location|e];
    cbn [snd stored trace];
    rewrite create_restoration_mockup_trace, generate_trace, Ha, <- ?app_assoc;
    rewrite ?app_nil_r; reflexivity.
Qed.

(** X3: whatever it is given, one run of the orchestrator draws at most
    one uuid, sends at most one vision request, one plan request and two
    image-edit requests, sleeps at most once, and reads the clock at most
    once. *)
Theorem request_call_budget rt image_data options address lat lon s :
  let before := trace s in
  let after :=
    trace (snd (restore_building_image rt image_data options address lat lon s)) in
  (count_events is_uuid4 after <= count_events is_uuid4 before + 1)%nat /\
  (count_events is_vision after <= count_events is_vision before + 1)%nat /\
  (count_events is_plan after <= count_events is_plan before + 1)%nat /\
  (count_events is_post after <= count_events is_post before + 2)%nat /\
  (count_events is_sleep after <= count_events is_sleep before + 1)%nat /\
  (count_events is_strftime after <= count_events is_strftime before + 1)%nat.
Proof.
  intros before after. subst before after.
  assert (Htrace :
    exists added,
      trace (snd (restore_building_image rt image_data options address lat lon s)) =
        (trace s ++ added)%list /\
      (count_events is_uuid4 added <= 1)%nat /\
      (count_events is_vision added <= 1)%nat /\
      (count_events is_plan added <= 1)%nat /\
      (count_events is_post added <= 2)%nat /\
      (count_events is_sleep added <= 1)%nat /\
      (count_events is_strftime added <= 1)%nat).
  { rewrite restore_run.
    destruct (credentials_missing rt) eqn:Hcred.
    { exists []. cbn. rewrite app_nil_r. repeat split; lia. }
    pose proof (restore_body_trace rt (next_id rt s) image_data options address lat lon
                  (log EvUuid4 s)) as Hbody.
    cbv zeta in Hbody.
    eexists. split.
    { destruct (restore_body rt _ image_data options address lat lon (log EvUuid4 s))
        as [[r|e] s'] eqn:Hrun; cbn [snd] in *; rewrite Hbody; cbn [log trace];
        rewrite <- app_assoc; reflexivity. }
    rewrite !count_events_app.
    assert (Ha : forall p,
              (count_events p (analysis_events rt image_data (log EvUuid4 s)) <=
               if p (vision_event rt image_data) then 1 else 0)%nat).
    { intros p. unfold analysis_events.
      destruct (analysis_cache (log EvUuid4 s) !! image_key rt image_data); [cbn; lia|].
      rewrite Hcred. cbn. destruct (p (vision_event rt image_data)); lia. }
    pose proof (Ha is_uuid4) as Ha1. pose proof (Ha is_vision) as Ha2.
    pose proof (Ha is_plan) as Ha3. pose proof (Ha is_post) as Ha4.
    pose proof (Ha is_sleep) as Ha5. pose proof (Ha is_strftime) as Ha6.
    cbn in Ha1, Ha2, Ha3, Ha4, Ha5, Ha6. clear Ha.
    destruct (fst (analyze_building_with_azure rt image_data (log EvUuid4 s)))
      as [analysis|e]; [|cbn; repeat split; lia].
    destruct options as [| | | | | | d]; try (cbn; repeat split; lia).
    cbv zeta. rewrite !count_events_app.
    unfold plan_events, edit_events. rewrite Hcred.
    destruct (b64decode image_data) as [image_bytes|e];
      [cbv zeta; destruct (attempt_blocked rt _)|];
      destruct (coerce_location rt lat lon); cbn; repeat split; lia. }
  destruct Htrace as (added & -> & H1 & H2 & H3 & H4 & H5 & H6).
  rewrite !count_events_app. repeat split; lia.
Qed.

(** X4: a run that returns a record made its calls in this order: the
    uuid, the vision request unless the analysis was cached, the plan
    request built from the record's prompt and analysis, the image-edit
    requests built from the record's plan text (none when the payload
    does not decode, otherwise one, or two with the sleep between them),
    and the clock. *)
Theorem pipeline_calls_in_order rt image_data options address lat lon s r s' :
  restore_building_image rt image_data options address lat lon s =
    (Ok (ResultData r), s') ->
  exists edits,
    trace s' =
      (trace s ++ [EvUuid4] ++ analysis_events rt image_data (log EvUuid4 s) ++
       [plan_event rt (res_prompt r) (res_azure_analysis r)] ++ edits ++
       [EvStrftime])%list /\
    match b64decode image_data with
    | Raise _ => edits = []
    | Ok image_bytes =>
        let req := edit_request rt image_bytes (res_restoration_description r) in
        edits = [EvPost req] \/ edits = [EvPost req; EvSleep 2; EvPost req]
    end.
Proof.
  rewrite restore_run.
  destruct (credentials_missing rt) eqn:Hcred; [discriminate|].
  rewrite restore_body_run.
  pose proof (analyze_trace rt image_data (log EvUuid4 s)) as Ha.
  destruct (analyze_building_with_azure rt image_data (log EvUuid4 s))
    as [[analysis|e] s1]; [|discriminate].
  destruct options as [| | | | | | d]; try discriminate.
  cbv zeta. cbn [fst snd] in *.
  destruct (coerce_location rt lat lon) as [location|e]; [|discriminate].
  intros [= <- <-].
  cbn [res_prompt res_azure_analysis res_restoration_description stored trace].
  rewrite create_restoration_mockup_trace, generate_trace, Ha.
  cbn [log trace]. unfold plan_events. rewrite Hcred.
  match goal with
  | |- context [edit_events rt image_data ?description ?s2] =>
      exists (edit_events rt image_data description s2)
  end.
  split.
  - rewrite <- !app_assoc. reflexivity.
  - unfold edit_events. rewrite Hcred.
    destruct (b64decode image_data) as [image_bytes|e]; [|reflexivity].
    cbv zeta. destruct (attempt_blocked rt _); [right | left]; reflexivity.
Qed.

(** X4, a run with every service answering. *)
Lemma pipeline_calls_witness :
  exists r s' edits,
    restore_building_image Samples.healthy "aGVsbG8=" (VDict ∅) VNone VNone VNone
      initial_state = (Ok (ResultData r), s') /\
    trace s' =
      ([EvUuid4; vision_event Samples.healthy "aGVsbG8=";
        plan_event Samples.healthy (res_prompt r) (res_azure_analysis r)] ++
       edits ++ [EvStrftime])%list.
Proof.
  destruct (restore_building_image Samples.healthy "aGVsbG8=" (VDict ∅) VNone VNone VNone
              initial_state) as [outcome s'] eqn:Hrun.
  assert (Hrecord : exists r, outcome = Ok (ResultData r)).
  { revert Hrun. vm_compute. intros [= <- _]. eexists. reflexivity. }
  destruct Hrecord as [r ->].
  destruct (pipeline_calls_in_order Samples.healthy "aGVsbG8=" (VDict ∅) VNone VNone VNone
              initial_state r s' Hrun) as (edits & Htrace & _).
  exists r, s', edits. split; [reflexivity | exact Htrace].
Defined.

(** ** Without credentials *)

(** X5: without the API key or the endpoint no stage calls out or
    changes the state: the analysis returns what is cached or else its
    fallback text, the plan generation raises, the image edit returns the
    original (decodable or not), and the orchestrator returns the
    credentials error. *)
Theorem nothing_leaves_without_credentials rt :
  credentials_missing rt = true ->
  (forall image_data s,
     analyze_building_with_azure rt image_data s =
       (Ok (default ANALYSIS_FALLBACK (analysis_cache s !! image_key rt image_data)), s)) /\
  (forall prompt analysis s,
     generate_restoration_description_with_azure rt prompt analysis s =
       (Raise (mkExc PlainException "Azure credentials not available"), s)) /\
  (forall original description s,
     create_restoration_mockup rt original description s = (Ok (VStr original), s)) /\
  (forall image_data options address lat lon s,
     restore_building_image rt image_data options address lat lon s =
       (Ok CREDENTIALS_ERROR, s)).
Proof.
  intros Hcred. repeat split; intros.
  - rewrite analyze_run, Hcred.
    destruct (analysis_cache s !! image_key rt image_data); reflexivity.
  - rewrite generate_run, Hcred. reflexivity.
  - rewrite create_restoration_mockup_run, Hcred. reflexivity.
  - rewrite restore_run, Hcred. reflexivity.
Qed.

(** X5, a run: an undecodable payload comes back from the image edit. *)
Lemma nothing_leaves_witness :
  create_restoration_mockup Samples.unconfigured "a" "plan" initial_state =
    (Ok (VStr "a"), initial_state).
Proof.
  exact (proj1 (proj2 (proj2 (nothing_leaves_without_credentials Samples.unconfigured
                                eq_refl))) "a" "plan" initial_state).
Defined.

(** ** Answered image edits *)

Lemma post_once_answer rt req s v :
  answers_with rt (edit_service rt (count_events is_post (trace s))) v ->
  _post_once rt req s = (Ok (true, v), log (EvPost req) s).
Proof.
  intros (text & payload & item & others & Ho & Hjson & Hdata & Hitem).
  unfold _post_once, requests_post. mrun. rewrite Ho. mrun.
  cbn [Z.eqb Pos.eqb]. unfold py_json_loads. rewrite Hjson.
  cbn [py_get getitem_str]. rewrite Hdata. cbn [default truthy getitem_0 getitem_str].
  rewrite Hitem. reflexivity.
Qed.

Lemma post_once_rejection rt req s :
  rejects_as_blocked rt (edit_service rt (count_events is_post (trace s))) ->
  exists text,
    _post_once rt req s = (Ok (false, VStr text), log (EvPost req) s) /\
    moderation_blocked rt (VStr text) = true.
Proof.
  intros (status_code & text & Ho & Hstatus & Hblocked).
  exists text. split; [|exact Hblocked].
  unfold _post_once, requests_post. mrun. rewrite Ho. mrun.
  destruct (Z.eqb_spec status_code 200) as [->|_]; [contradiction|reflexivity].
Qed.

(** X6: with credentials and a payload that decodes, when the first
    answer of the endpoint carries an image, the image edit returns that
    image after a single request and no sleep; an empty image counts as
    none and the original is returned. *)
Theorem first_answer_is_returned rt original description image_bytes s v :
  credentials_missing rt = false ->
  b64decode original = Ok image_bytes ->
  answers_with rt (edit_service rt (count_events is_post (trace s))) v ->
  create_restoration_mockup rt original description s =
    (Ok (if truthy v then v else VStr original),
     log (EvPost (edit_request rt image_bytes description)) s).
Proof.
  intros Hcred Hdecode Hanswer.
  rewrite create_restoration_mockup_run, Hcred, Hdecode. cbv zeta.
  rewrite (post_once_answer rt _ s v Hanswer). reflexivity.
Qed.

Lemma first_answer_witness :
  create_restoration_mockup Samples.healthy "aGVsbG8=" "plan" initial_state =
    (Ok (VStr "cmVzdG9yZWQ="),
     log (EvPost (edit_request Samples.healthy "hello" "plan")) initial_state).
Proof.
  refine (first_answer_is_returned Samples.healthy "aGVsbG8=" "plan" "hello" initial_state
            (VStr "cmVzdG9yZWQ=") eq_refl eq_refl _).
  exists (Samples.image_text "cmVzdG9yZWQ="), {[ "data" := VList [VDict {[ "b64_json" := VStr "cmVzdG9yZWQ=" ]}] ]},
         {[ "b64_json" := VStr "cmVzdG9yZWQ=" ]}, [].
  repeat split; reflexivity.
Defined.

(** X7: with credentials and a payload that decodes, when the first
    request is rejected on moderation grounds and the second is answered
    with an image, the image edit returns that image; the trace shows the
    request, the sleep of 2 seconds and the same request again. *)
Theorem retry_answer_is_returned rt original description image_bytes s v :
  credentials_missing rt = false ->
  b64decode original = Ok image_bytes ->
  rejects_as_blocked rt (edit_service rt (count_events is_post (trace s))) ->
  answers_with rt (edit_service rt (S (count_events is_post (trace s)))) v ->
  let req := edit_request rt image_bytes description in
  create_restoration_mockup rt original description s =
    (Ok (if truthy v then v else VStr original),
     log (EvPost req) (log (EvSleep 2) (log (EvPost req) s))).
Proof.
  intros Hcred Hdecode Hreject Hanswer req. subst req.
  rewrite create_restoration_mockup_run, Hcred, Hdecode. cbv zeta.
  destruct (post_once_rejection rt (edit_request rt image_bytes description) s Hreject)
    as (text & -> & Hblocked).
  cbn [attempt_blocked]. rewrite Hblocked.
  rewrite (post_once_answer rt _ _ v); [reflexivity|].
  cbn [log trace]. rewrite !count_events_app. cbn.
  replace (count_events is_post (trace s) + 1 + 0)%nat
    with (S (count_events is_post (trace s))) by lia.
  exact Hanswer.
Qed.

Lemma retry_answer_witness :
  fst (create_restoration_mockup Samples.blocked_once "aGVsbG8=" "plan" initial_state) =
    Ok (VStr "cmVzdG9yZWQ=").
Proof.
  rewrite (retry_answer_is_returned Samples.blocked_once "aGVsbG8=" "plan" "hello"
             initial_state (VStr "cmVzdG9yZWQ=") eq_refl eq_refl).
  - reflexivity.
  - exists 400%Z, Samples.blocked_text. repeat split; reflexivity || discriminate.
  - exists (Samples.image_text "cmVzdG9yZWQ="),
           {[ "data" := VList [VDict {[ "b64_json" := VStr "cmVzdG9yZWQ=" ]}] ]},
           {[ "b64_json" := VStr "cmVzdG9yZWQ=" ]}, [].
    repeat split; reflexivity.
Defined.

(** ** Repeated requests *)

Lemma analyze_hit rt image_data s analysis :
  analysis_cache s !! image_key rt image_data = Some analysis ->
  analyze_building_with_azure rt image_data s = (Ok analysis, s).
Proof. intros H. rewrite analyze_run, H. reflexivity. Qed.

Lemma analyze_caches rt image_data s :
  analysis_obtained rt image_data s = true ->
  exists analysis,
    fst (analyze_building_with_azure rt image_data s) = Ok analysis /\
    analysis_cache (snd (analyze_building_with_azure rt image_data s))
      !! image_key rt image_data = Some analysis.
Proof.
  unfold analysis_obtained. rewrite analyze_run.
  destruct (analysis_cache s !! image_key rt image_data) as [cached|] eqn:Hc.
  - intros _. exists cached. split; [reflexivity | exact Hc].
  - destruct (credentials_missing rt); [discriminate|]. cbn [negb andb].
    destruct (vision_service rt _) as [e|[|c cs]]; try discriminate.
    intros _. exists c. split; [reflexivity|].
    cbn [snd analysis_cache]. apply lookup_insert_eq.
Qed.

Lemma restore_analysis rt image_data options address lat lon s r :
  fst (restore_building_image rt image_data options address lat lon s) =
    Ok (ResultData r) ->
  fst (analyze_building_with_azure rt image_data (log EvUuid4 s)) =
    Ok (res_azure_analysis r).
Proof.
  rewrite restore_run.
  destruct (credentials_missing rt); [discriminate|].
  rewrite restore_body_run.
  destruct (analyze_building_with_azure rt image_data (log EvUuid4 s))
    as [[analysis|e] s1]; [|discriminate].
  destruct options as [| | | | | | d]; try discriminate.
  cbv zeta.
  destruct (coerce_location rt lat lon) as [location|e]; [|discriminate].
  intros [= <-]. reflexivity.
Qed.

Lemma edit_events_no_vision rt original description s :
  count_events is_vision (edit_events rt original description s) = O.
Proof.
  unfold edit_events.
  destruct (credentials_missing rt); [reflexivity|].
  destruct (b64decode original) as [image_bytes|e]; [|reflexivity].
  cbv zeta. destruct (attempt_blocked rt _); reflexivity.
Qed.

(** The vision requests of a run are those of its analysis. *)
Lemma restore_vision_count rt image_data options address lat lon s :
  credentials_missing rt = false ->
  count_events is_vision
    (trace (snd (restore_building_image rt image_data options address lat lon s))) =
  (count_events is_vision (trace s) +
   count_events is_vision (analysis_events rt image_data (log EvUuid4 s)))%nat.
Proof.
  intros Hcred.
  pose proof (restore_body_trace rt (next_id rt s) image_data options address lat lon
                (log EvUuid4 s)) as Hbody.
  cbv zeta in Hbody.
  assert (Hsnd :
    snd (restore_building_image rt image_data options address lat lon s) =
    snd (restore_body rt (next_id rt s) image_data options address lat lon (log EvUuid4 s))).
  { rewrite restore_run, Hcred.
    destruct (restore_body rt _ image_data options address lat lon (log EvUuid4 s))
      as [[r|e] s']; reflexivity. }
  rewrite Hsnd, Hbody. cbn [log trace]. rewrite !count_events_app. cbn.
  destruct (fst (analyze_building_with_azure rt image_data (log EvUuid4 s)))
    as [analysis|e]; [|cbn; lia].
  destruct options as [| | | | | | d]; try (cbn; lia).
  cbv zeta. rewrite !count_events_app, edit_events_no_vision.
  unfold plan_events. rewrite Hcred.
  destruct (coerce_location rt lat lon); cbn; lia.
Qed.

(** X8: take two consecutive requests, with any options, on payloads
    with the same first hundred characters.  If the first one got its
    analysis from the cache or from an answered vision request, the
    second one sends no vision request, and when both return records the
    two records carry the same analysis. *)
Theorem repeated_request_reuses_analysis
    rt image1 image2 options1 address1 lat1 lon1 options2 address2 lat2 lon2 s :
  credentials_missing rt = false ->
  substring 0 100 image1 = substring 0 100 image2 ->
  analysis_obtained rt image1 (log EvUuid4 s) = true ->
  let first := restore_building_image rt image1 options1 address1 lat1 lon1 s in
  let second := restore_building_image rt image2 options2 address2 lat2 lon2 (snd first) in
  count_events is_vision (trace (snd second)) =
    count_events is_vision (trace (snd first)) /\
  (forall r1 r2,
     fst first = Ok (ResultData r1) ->
     fst second = Ok (ResultData r2) ->
     res_azure_analysis r2 = res_azure_analysis r1).
Proof.
  intros Hcred Hprefix Hobtained first second. subst first second.
  assert (Hkey : image_key rt image2 = image_key rt image1)
    by (unfold image_key; rewrite Hprefix; reflexivity).
  destruct (analyze_caches rt image1 (log EvUuid4 s) Hobtained) as (analysis & Ha & Hcached).
  set (s1 := snd (restore_building_image rt image1 options1 address1 lat1 lon1 s)).
  assert (Hc1 : analysis_cache (log EvUuid4 s1) !! image_key rt image2 = Some analysis).
  { cbn [log analysis_cache]. subst s1. rewrite restore_cache, Hcred, Hkey. exact Hcached. }
  split.
  - rewrite restore_vision_count by exact Hcred.
    unfold analysis_events. rewrite Hc1. cbn. lia.
  - intros r1 r2 H1 H2.
    apply restore_analysis in H1. apply restore_analysis in H2.
    rewrite (analyze_hit rt image2 (log EvUuid4 s1) analysis Hc1) in H2.
    cbn [fst] in H2. congruence.
Qed.

(** X8, a run: two payloads that differ after the hundredth character. *)
Lemma repeated_request_witness :
  let image1 := "iVBORw0KGgoAAAANSUhEUgAAAAEAAAABCAYAAAAfFcSJAAAADUlEQVR42mNkYPhfDwAChwGA60e6kgAAAABJRU5ErkJggg==AAAAAAAAAAAA" in
  let image2 := "iVBORw0KGgoAAAANSUhEUgAAAAEAAAABCAYAAAAfFcSJAAAADUlEQVR42mNkYPhfDwAChwGA60e6kgAAAABJRU5ErkJggg==AAAAAAAABBBB" in
  let first := restore_building_image Samples.healthy image1 (VDict ∅) VNone VNone VNone
                 initial_state in
  let second := restore_building_image Samples.healthy image2 (VDict ∅) VNone VNone VNone
                  (snd first) in
  count_events is_vision (trace (snd second)) = count_events is_vision (trace (snd first)).
Proof.
  intros image1 image2.
  exact (proj1 (repeated_request_reuses_analysis Samples.healthy image1 image2
                  (VDict ∅) VNone VNone VNone (VDict ∅) VNone VNone VNone initial_state
                  eq_refl eq_refl eq_refl)).
Defined.

(** ** Requests that fail inside the pipeline *)

Lemma coerce_location_overflow rt lat lon :
  match coerce_location rt lat lon with
  | Ok _ => location_overflows rt lat lon = false
  | Raise e =>
      location_overflows rt lat lon = true /\
      e = mkExc OverflowError "int too large to convert to float"
  end.
Proof.
  unfold coerce_location, location_overflows, float_raises, too_large.
  destruct (truthy lat && truthy lon); [|reflexivity]. cbn [andb].
  destruct lat as [| [|] | z1 | f1 | t1 | l1 | d1]; cbn [py_float orb negb andb];
    try (destruct (float_of_str rt t1)); try (destruct (float_of_int rt z1));
    cbn [existsb isinstance exc_class exc_class_eqb orb negb andb];
    try reflexivity; try (split; reflexivity);
    destruct lon as [| [|] | z2 | f2 | t2 | l2 | d2]; cbn [py_float orb negb andb];
    try (destruct (float_of_str rt t2)); try (destruct (float_of_int rt z2));
    cbn [existsb isinstance exc_class exc_class_eqb orb negb andb];
    try reflexivity; split; reflexivity.
Qed.

(** X9: with credentials, the orchestrator returns the pipeline error in
    exactly two cases: the options are not a dictionary (the message names
    the missing [get]), or they are and a coordinate is an integer too
    large for [float] (the message is the overflow).  In every other case
    it returns a record. *)
Theorem pipeline_error_causes rt image_data options address lat lon s :
  credentials_missing rt = false ->
  match fst (restore_building_image rt image_data options address lat lon s) with
  | Ok (ResultData r) =>
      is_dict options = true /\ location_overflows rt lat lon = false
  | Ok (PipelineError error help id) =>
      (is_dict options = false /\
       error = "Restoration planning failed: '" +:+ type_name options +:+
               "' object has no attribute 'get'") \/
      (is_dict options = true /\ location_overflows rt lat lon = true /\
       error = "Restoration planning failed: int too large to convert to float")
  | _ => False
  end.
Proof.
  intros Hcred. rewrite restore_run, Hcred, restore_body_run.
  destruct (analyze_ok rt image_data (log EvUuid4 s)) as [analysis ->].
  destruct options as [| b | z | f | t | l | d]; cbn [fst]; try (left; split; reflexivity).
  cbv zeta.
  pose proof (coerce_location_overflow rt lat lon) as Hloc.
  destruct (coerce_location rt lat lon) as [location|e]; cbn [fst].
  - split; [reflexivity | exact Hloc].
  - destruct Hloc as [Hover ->]. right. repeat split; reflexivity || exact Hover.
Qed.

(** X9, a run: a latitude sent as an integer of 400 digits. *)
Lemma pipeline_error_causes_witness :
  fst (restore_building_image Samples.healthy "aGVsbG8=" (VDict ∅) VNone
         (VInt (10 ^ 400)) (VStr "-74.0") initial_state) =
    Ok (PipelineError "Restoration planning failed: int too large to convert to float"
          PIPELINE_HELP "00000000000040008000000000000000").
Proof.
  pose proof (pipeline_error_causes Samples.healthy "aGVsbG8=" (VDict ∅) VNone
                (VInt (10 ^ 400)) (VStr "-74.0") initial_state eq_refl) as H.
  destruct (fst (restore_building_image Samples.healthy "aGVsbG8=" (VDict ∅) VNone
                   (VInt (10 ^ 400)) (VStr "-74.0") initial_state))
    as [[r|error help|error help id]|e] eqn:Hrun; try contradiction.
  - destruct H as [_ H]. vm_compute in H. discriminate.
  - revert Hrun. vm_compute. intros [= <- <- <-]. reflexivity.
Defined.

(** X10: such an overflow is met only after the edit stage: with
    credentials, a dictionary of options and a payload that decodes, the
    request has by then posted at least one image-edit request, and yet
    nothing is stored. *)
Theorem overflow_fails_after_the_edit
    rt image_data (d : gmap string PyVal) address lat lon image_bytes s :
  credentials_missing rt = false ->
  b64decode image_data = Ok image_bytes ->
  location_overflows rt lat lon = true ->
  let run := restore_building_image rt image_data (VDict d) address lat lon s in
  (exists error help id, fst run = Ok (PipelineError error help id)) /\
  restoration_results (snd run) = restoration_results s /\
  (count_events is_post (trace s) + 1 <= count_events is_post (trace (snd run)))%nat.
Proof.
  intros Hcred Hdecode Hover run. subst run.
  pose proof (restore_store rt image_data (VDict d) address lat lon s) as Hstore.
  pose proof (restore_body_trace rt (next_id rt s) image_data (VDict d) address lat lon
                (log EvUuid4 s)) as Hbody.
  cbv zeta in Hbody. revert Hstore Hbody.
  rewrite restore_run, Hcred, restore_body_run.
  destruct (analyze_ok rt image_data (log EvUuid4 s)) as [analysis ->].
  cbv zeta. cbn [fst snd].
  pose proof (coerce_location_overflow rt lat lon) as Hloc.
  destruct (coerce_location rt lat lon) as [location|e];
    [rewrite Hover in Hloc; discriminate|].
  cbn [fst snd]. intros Hstore Hbody.
  split; [eauto|]. split; [exact Hstore|].
  rewrite Hbody. cbn [log trace]. rewrite !count_events_app.
  unfold edit_events. rewrite Hcred, Hdecode. cbv zeta.
  destruct (attempt_blocked rt _); cbn; lia.
Qed.

Lemma overflow_witness :
  restoration_results
    (snd (restore_building_image Samples.healthy "aGVsbG8=" (VDict ∅) VNone
            (VInt (10 ^ 400)) (VStr "-74.0") initial_state)) = ∅ /\
  (1 <= count_events is_post
          (trace (snd (restore_building_image Samples.healthy "aGVsbG8=" (VDict ∅) VNone
                         (VInt (10 ^ 400)) (VStr "-74.0") initial_state))))%nat.
Proof.
  destruct (overflow_fails_after_the_edit Samples.healthy "aGVsbG8=" ∅ VNone
              (VInt (10 ^ 400)) (VStr "-74.0") "hello" initial_state
              eq_refl eq_refl eq_refl) as (_ & Hstore & Hposts).
  split; [exact Hstore | exact Hposts].
Defined.

(** ** The endpoint address and the payload *)

Lemma endswith_slash_appended endpoint : endswith "/" (endpoint +:+ "/") = true.
Proof.
  induction endpoint as [|a rest IH]; [reflexivity|].
  destruct rest as [|b rest']; [reflexivity|].
  exact IH.
Qed.

(** X11: a slash at the end of the configured endpoint makes no
    difference to the address of the image-edit request. *)
Theorem edit_url_ignores_trailing_slash endpoint deployment api_ver :
  endswith "/" endpoint = false ->
  edit_url (endpoint +:+ "/") deployment api_ver = edit_url endpoint deployment api_ver.
Proof.
  intros H. unfold edit_url. rewrite endswith_slash_appended, H. reflexivity.
Qed.

Lemma edit_url_witness :
  edit_url "https://example.test/" "gpt-image-1" "2025-04-01-preview" =
  edit_url "https://example.test" "gpt-image-1" "2025-04-01-preview".
Proof.
  exact (edit_url_ignores_trailing_slash "https://example.test" "gpt-image-1"
           "2025-04-01-preview" eq_refl).
Defined.

Lemma is_data_facts c :
  is_data c = true ->
  Ascii.eqb c "=" = false /\ (Z.of_nat (nat_of_ascii c) <? 128) = true.
Proof.
  destruct c as [[] [] [] [] [] [] [] []]; vm_compute; intros H;
    try discriminate H; split; reflexivity.
Qed.

Lemma pad_is_ascii : (Z.of_nat (nat_of_ascii "=") <? 128) = true.
Proof. reflexivity. Qed.

Lemma canonical_is_ascii n : forall s,
  (String.length s <= n)%nat -> canonical_b64 s = true -> is_ascii s = true.
Proof.
  induction n as [|n IH]; intros s Hlen Hcan.
  - destruct s; [reflexivity | cbn in Hlen; lia].
  - destruct s as [|a [|b [|c [|d rest]]]]; try discriminate; [reflexivity|].
    cbn [canonical_b64] in Hcan.
    destruct (is_data a) eqn:Ha; [|discriminate].
    destruct (is_data b) eqn:Hb; [|discriminate]. cbn [andb] in Hcan.
    destruct (is_data_facts a Ha) as [_ Ha'].
    destruct (is_data_facts b Hb) as [_ Hb'].
    cbn [is_ascii]. rewrite Ha', Hb'. cbn [andb].
    destruct (is_data c) eqn:Hc.
    + destruct (is_data_facts c Hc) as [_ Hc']. rewrite Hc'. cbn [andb].
      destruct (is_data d) eqn:Hd.
      * destruct (is_data_facts d Hd) as [_ Hd']. rewrite Hd'. cbn [andb].
        apply IH; [cbn in Hlen; lia | exact Hcan].
      * apply andb_prop in Hcan. destruct Hcan as [Hd' Hrest].
        apply Ascii.eqb_eq in Hd'. apply String.eqb_eq in Hrest. subst. reflexivity.
    + apply andb_prop in Hcan. destruct Hcan as [Hcd Hrest].
      apply andb_prop in Hcd. destruct Hcd as [Hc' Hd'].
      apply Ascii.eqb_eq in Hc'. apply Ascii.eqb_eq in Hd'.
      apply String.eqb_eq in Hrest. subst. reflexivity.
Qed.

Lemma a2b_data c rest quad_pos leftchar pads out :
  is_data c = true ->
  exists this_ch,
    b64_value c = Some this_ch /\
    a2b_base64 (String c rest) quad_pos leftchar pads out =
    match quad_pos with
    | O => a2b_base64 rest 1 this_ch 0 out
    | S O =>
        a2b_base64 rest 2 (Z.land this_ch 15) 0
          (byte_of_Z (Z.lor (Z.shiftl leftchar 2) (Z.shiftr this_ch 4)) :: out)
    | S (S O) =>
        a2b_base64 rest 3 (Z.land this_ch 3) 0
          (byte_of_Z (Z.lor (Z.shiftl leftchar 4) (Z.shiftr this_ch 2)) :: out)
    | _ =>
        a2b_base64 rest 0 0 0
          (byte_of_Z (Z.lor (Z.shiftl leftchar 6) this_ch) :: out)
    end.
Proof.
  intros Hc. destruct (is_data_facts c Hc) as [Hpad _].
  unfold is_data in Hc. destruct (b64_value c) as [this_ch|] eqn:Hv; [|discriminate].
  exists this_ch. split; [reflexivity|].
  cbn [a2b_base64]. rewrite Hpad, Hv. reflexivity.
Qed.

Lemma a2b_canonical n : forall s leftchar pads out,
  (String.length s <= n)%nat ->
  canonical_b64 s = true ->
  exists image_bytes, a2b_base64 s 0 leftchar pads out = Ok image_bytes.
Proof.
  induction n as [|n IH]; intros s leftchar pads out Hlen Hcan.
  - destruct s; [eexists; reflexivity | cbn in Hlen; lia].
  - destruct s as [|a [|b [|c [|d rest]]]]; try discriminate; [eexists; reflexivity|].
    cbn [canonical_b64] in Hcan.
    destruct (is_data a) eqn:Ha; [|discriminate].
    destruct (is_data b) eqn:Hb; [|discriminate]. cbn [andb] in Hcan.
    destruct (a2b_data a (String b (String c (String d rest))) 0 leftchar pads out Ha)
      as (va & _ & ->).
    destruct (a2b_data b (String c (String d rest)) 1 va 0 out Hb) as (vb & _ & ->).
    destruct (is_data c) eqn:Hc.
    + destruct (a2b_data c (String d rest) 2 (Z.land vb 15) 0
                  (byte_of_Z (Z.lor (Z.shiftl va 2) (Z.shiftr vb 4)) :: out) Hc)
        as (vc & _ & ->).
      destruct (is_data d) eqn:Hd.
      * destruct (a2b_data d rest 3 (Z.land vc 3) 0
                    (byte_of_Z (Z.lor (Z.shiftl (Z.land vb 15) 4) (Z.shiftr vc 2)) ::
                     byte_of_Z (Z.lor (Z.shiftl va 2) (Z.shiftr vb 4)) :: out) Hd)
          as (vd & _ & ->).
        apply IH; [cbn in Hlen; lia | exact Hcan].
      * apply andb_prop in Hcan. destruct Hcan as [Hd' Hrest].
        apply Ascii.eqb_eq in Hd'. apply String.eqb_eq in Hrest. subst.
        eexists. reflexivity.
    + apply andb_prop in Hcan. destruct Hcan as [Hcd Hrest].
      apply andb_prop in Hcd. destruct Hcd as [Hc' Hd'].
      apply Ascii.eqb_eq in Hc'. apply Ascii.eqb_eq in Hd'.
      apply String.eqb_eq in Hrest. subst.
      eexists. reflexivity.
Qed.

(** X12: base64 text as an encoder writes it always decodes, so on such
    a payload the image edit gets past its decoding step: with
    credentials it posts at least one request. *)
Theorem canonical_payload_decodes rt original description s :
  canonical_b64 original = true ->
  (exists image_bytes, b64decode original = Ok image_bytes) /\
  (credentials_missing rt = false ->
   (count_events is_post (trace s) + 1 <=
    count_events is_post
      (trace (snd (create_restoration_mockup rt original description s))))%nat).
Proof.
  intros Hcan.
  assert (Hdecode : exists image_bytes, b64decode original = Ok image_bytes).
  { unfold b64decode.
    rewrite (canonical_is_ascii (String.length original) original (le_n _) Hcan).
    apply (a2b_canonical (String.length original)); [apply le_n | exact Hcan]. }
  split; [exact Hdecode|].
  intros Hcred. destruct Hdecode as [image_bytes Hdecode].
  rewrite create_restoration_mockup_trace, count_events_app.
  unfold edit_events. rewrite Hcred, Hdecode. cbv zeta.
  destruct (attempt_blocked rt _); cbn; lia.
Qed.

Lemma canonical_payload_witness :
  exists image_bytes,
    b64decode "iVBORw0KGgoAAAANSUhEUgAAAAEAAAABCAYAAAAfFcSJAAAADUlEQVR42mNkYPhfDwAChwGA60e6kgAAAABJRU5ErkJggg==" =
      Ok image_bytes.
Proof.
  exact (proj1 (canonical_payload_decodes Samples.healthy
                  "iVBORw0KGgoAAAANSUhEUgAAAAEAAAABCAYAAAAfFcSJAAAADUlEQVR42mNkYPhfDwAChwGA60e6kgAAAABJRU5ErkJggg=="
                  "plan" initial_state eq_refl)).
Defined.

(** ** The restore endpoint *)

(** One call of the endpoint on a request whose body is a dictionary,
    path by path. *)
Lemma api_restore_run rt (data : gmap string PyVal) s :
  api_restore_building rt (Ok (VDict data)) s =
  match py_len (request_image_data data) with
  | Raise e => Some (server_error (exc_msg e), s)
  | Ok _ =>
      if negb (truthy (request_image_data data)) then Some (NO_IMAGE_RESPONSE, s)
      else if credentials_missing rt then Some (NO_CREDENTIALS_RESPONSE, s)
      else
        match request_image_data data with
        | VStr text =>
            let run := restore_building_image rt text (request_options data)
                         (request_address data) (request_lat data) (request_lon data) s in
            match fst run with
            | Ok outcome =>
                if outcome_compliant outcome
                then Some ({| resp_content := ContentOutcome outcome; resp_status := 200 |},
                           snd run)
                else Some (server_error "Out of range float values are not JSON compliant",
                           snd run)
            | Raise e => Some (server_error (exc_msg e), snd run)
            end
        | _ => None
        end
  end.
Proof.
  unfold api_restore_building, api_restore_try, request_image_data, request_options,
    request_address, request_lat, request_lon, option_or, credentials_missing, getenv.
  mrun. cbn [py_get].
  destruct (py_len (default (VStr "") (data !! "image_data"))) as [characters|e];
    [|reflexivity].
  destruct (truthy (default (VStr "") (data !! "image_data"))); cbn [negb];
    [|reflexivity].
  destruct (not_set (environ rt !! "AZURE_OPENAI_API_KEY") ||
            not_set (environ rt !! "AZURE_OPENAI_ENDPOINT")); [reflexivity|].
  destruct (default (VStr "") (data !! "image_data")) as [| | | | text | |];
    try reflexivity.
  cbv zeta.
  destruct (restore_building_image rt text _ _ _ _ s) as [[outcome|e] s']; [|reflexivity].
  cbn [fst snd]. unfold json_response.
  destruct (outcome_compliant outcome); reflexivity.
Qed.

(** X13: the endpoint takes the length of [image_data] before it tests
    it, so a request whose [image_data] is null, a boolean or a number is
    answered 500 with the text of the [TypeError], while one without
    [image_data], or with an empty string, list or dictionary, is
    answered 400.  Both answers come before the credentials are looked at
    and leave the state alone. *)
Theorem unusable_payload_answers rt (data : gmap string PyVal) s :
  let image_data := request_image_data data in
  (sized image_data = false ->
   api_restore_building rt (Ok (VDict data)) s =
     Some (server_error
             ("object of type '" +:+ type_name image_data +:+ "' has no len()"), s)) /\
  (sized image_data = true ->
   truthy image_data = false ->
   api_restore_building rt (Ok (VDict data)) s = Some (NO_IMAGE_RESPONSE, s)).
Proof.
  intros image_data. subst image_data. rewrite api_restore_run.
  destruct (request_image_data data) as [| b | z | f | t | l | payload];
    cbn [sized py_len]; split; try discriminate; try (intros _; reflexivity);
    intros _ ->; reflexivity.
Qed.

(** X13, two runs: a null payload and an empty one. *)
Lemma unusable_payload_witness :
  api_restore_building Samples.healthy
    (Ok (VDict {[ "image_data" := VNone ]})) initial_state =
    Some (server_error "object of type 'NoneType' has no len()", initial_state) /\
  api_restore_building Samples.healthy
    (Ok (VDict {[ "image_data" := VStr "" ]})) initial_state =
    Some (NO_IMAGE_RESPONSE, initial_state).
Proof.
  split.
  - exact (proj1 (unusable_payload_answers Samples.healthy
                    {[ "image_data" := VNone ]} initial_state) eq_refl).
  - exact (proj2 (unusable_payload_answers Samples.healthy
                    {[ "image_data" := VStr "" ]} initial_state) eq_refl eq_refl).
Defined.






(** X16: the answer is rendered after the record is stored.  With
    credentials, a text payload, a dictionary of options and two
    coordinate strings that [float] reads, one of them as an infinity or
    a NaN, the record is stored under the drawn id and the endpoint
    answers 500, so the client never learns that id. *)
Theorem unrenderable_record_is_stored
    rt (data d : gmap string PyVal) text la lo latitude longitude s :
  credentials_missing rt = false ->
  request_image_data data = VStr text -> text <> "" ->
  request_options data = VDict d ->
  request_lat data = VStr la -> la <> "" -> float_of_str rt la = Some latitude ->
  request_lon data = VStr lo -> lo <> "" -> float_of_str rt lo = Some longitude ->
  finite latitude && finite longitude = false ->
  exists r s' message,
    api_restore_building rt (Ok (VDict data)) s = Some (server_error message, s') /\
    restoration_results s' !! next_id rt s = Some r /\
    res_location_lat r = Some latitude /\
    res_location_lon r = Some longitude.
Proof.
  intros Hcred Himage Htext Hoptions Hlat Hla Hflat Hlon Hlo Hflon Hfinite.
  rewrite api_restore_run, Himage, Hcred, Hoptions, Hlat, Hlon.
  cbn [py_len truthy]. destruct (String.eqb_spec text "") as [->|_]; [contradiction|].
  cbn [negb]. cbv zeta.
  destruct (restore_dict_run rt text d (request_address data) (VStr la) (VStr lo) s
              Hcred eq_refl eq_refl) as (analysis & _ & Hrun).
  cbv zeta in Hrun. rewrite Hrun. cbn [fst snd].
  assert (Hloc : parsed_location rt (VStr la) (VStr lo) = (Some latitude, Some longitude)).
  { unfold parsed_location. rewrite Hflat, Hflon.
    destruct (String.eqb_spec la "") as [->|_]; [contradiction|].
    destruct (String.eqb_spec lo "") as [->|_]; [contradiction|]. reflexivity. }
  rewrite Hloc. cbn [fst snd].
  assert (Hout : forall r,
            res_location_lat r = Some latitude ->
            res_location_lon r = Some longitude ->
            outcome_compliant (ResultData r) = false).
  { intros r H1 H2. cbn [outcome_compliant]. rewrite H1, H2. cbn [float_compliant].
    destruct (finite latitude); cbn [andb] in *.
    - rewrite Hfinite, !andb_false_r. reflexivity.
    - rewrite !andb_false_r. reflexivity. }
  rewrite Hout by reflexivity.
  eexists _, _, _. split; [reflexivity|].
  split; [unfold stored; cbn [restoration_results]; apply lookup_insert_eq|].
  split; reflexivity.
Qed.

(** X16, a run: the latitude is sent as "nan". *)
Lemma unrenderable_record_witness :
  exists r s' message,
    api_restore_building nan_reader
      (Ok (VDict {[ "image_data" := VStr "aGVsbG8="; "lat" := VStr "nan";
                    "lon" := VStr "-74.0" ]})) initial_state =
      Some (server_error message, s') /\
    restoration_results s' !! "00000000000040008000000000000000" = Some r.
Proof.
  destruct (unrenderable_record_is_stored nan_reader
              {[ "image_data" := VStr "aGVsbG8="; "lat" := VStr "nan";
                 "lon" := VStr "-74.0" ]} ∅ "aGVsbG8=" "nan" "-74.0"
              S754_nan (S754_finite true 5207287069147136 (-46)) initial_state
              ltac:(reflexivity) ltac:(reflexivity) ltac:(discriminate)
              ltac:(reflexivity)
              ltac:(reflexivity) ltac:(discriminate) ltac:(reflexivity)
              ltac:(reflexivity) ltac:(discriminate) ltac:(reflexivity)
              ltac:(reflexivity))
    as (r & s' & message & Hrun & Hstored & _).
  exists r, s', message. split; [exact Hrun | exact Hstored].
Defined.

(** ** The results page *)

(** X17: the id a pipeline error carries leads nowhere: when it was free
    before the run, the results page for it is the not-found page. *)
Theorem error_id_has_no_page
    rt image_data options address lat lon s error help id s' :
  restore_building_image rt image_data options address lat lon s =
    (Ok (PipelineError error help id), s') ->
  restoration_results s !! id = None ->
  results_page rt id s' = Ok ResultNotFound.
Proof.
  intros Hrun Hfree.
  pose proof (restore_store rt image_data options address lat lon s) as Hstore.
  rewrite Hrun in Hstore. cbn [fst snd] in Hstore.
  unfold results_page. rewrite Hstore, Hfree. reflexivity.
Qed.

Lemma error_id_witness :
  results_page Samples.healthy "00000000000040008000000000000000"
    (snd (restore_building_image Samples.healthy "aGVsbG8=" VNone VNone VNone VNone
            initial_state)) = Ok ResultNotFound.
Proof.
  refine (error_id_has_no_page Samples.healthy "aGVsbG8=" VNone VNone VNone VNone
            initial_state
            "Restoration planning failed: 'NoneType' object has no attribute 'get'"
            PIPELINE_HELP "00000000000040008000000000000000" _ _ eq_refl).
  vm_compute. reflexivity.
Defined.

(** X18: the page of a record just made.  In a run with credentials, a
    dictionary of options, textual coordinates and an address that is a
    string or absent, the results page for the returned id is found and
    does not raise; it has the map section exactly when both coordinates
    were usable, shows the record's analysis, shows the address paragraph
    exactly when the address is not empty, and writes the payload and the
    address, its double quotes escaped, into the script. *)
Theorem fresh_record_page rt image_data (d : gmap string PyVal) address lat lon s :
  credentials_missing rt = false ->
  textual lat = true ->
  textual lon = true ->
  textual address = true ->
  exists r s' view,
    restore_building_image rt image_data (VDict d) address lat lon s =
      (Ok (ResultData r), s') /\
    results_page rt (res_id r) s' = Ok (RestorationResults view) /\
    view_map_section view = negb (unusable rt lat || unusable rt lon) /\
    view_analysis view = "Building Analysis: " +:+ res_azure_analysis r /\
    view_address view = address_paragraph address /\
    script_original_image view = image_data /\
    script_address view = address_literal address.
Proof.
  intros Hcred Hlat Hlon Haddress.
  destruct (restore_dict_run rt image_data d address lat lon s Hcred Hlat Hlon)
    as (analysis & _ & Hrun).
  cbv zeta in Hrun.
  assert (Haddr : exists text,
            py_or address (VStr "") = VStr text /\
            address_paragraph address =
              (if truthy (VStr text) then Some ("Address: " +:+ text) else None) /\
            address_literal address = escape_quotes text).
  { destruct address as [| | | | text | |]; try discriminate.
    - exists "". repeat split; reflexivity.
    - unfold py_or. cbn [truthy address_paragraph address_literal].
      destruct (String.eqb_spec text "") as [->|Hne]; cbn [negb].
      + exists "". repeat split; reflexivity.
      + exists text. cbn [truthy].
        destruct (String.eqb_spec text "") as [->|_]; [contradiction|].
        repeat split; reflexivity. }
  destruct Haddr as (text & Hor & Hpar & Hlit). rewrite Hor in Hrun.
  eexists _, _, _. split; [exact Hrun|].
  cbn [res_id]. unfold results_page, stored. cbn [restoration_results].
  rewrite lookup_insert_eq.
  cbn [res_address res_location_lat res_location_lon res_azure_analysis
       res_original_image res_created_at res_restored_image].
  cbn [py_replace_quotes]. split; [reflexivity|].
  cbn [view_map_section view_analysis view_address script_original_image script_address
       py_str].
  split; [|split; [reflexivity|split; [symmetry; exact Hpar|split;
           [reflexivity|symmetry; exact Hlit]]]].
  unfold parsed_location, unusable.
  destruct lat as [| | | | la | |]; try discriminate;
    destruct lon as [| | | | lo | |]; try discriminate;
    cbn [orb negb fst snd]; try (rewrite ?orb_true_r; reflexivity).
  destruct (String.eqb la ""); cbn [orb negb fst snd]; [reflexivity|].
  destruct (String.eqb lo ""); cbn [orb negb fst snd];
    [rewrite orb_true_r; reflexivity|].
  destruct (float_of_str rt la); cbn [orb negb fst snd]; [|reflexivity].
  destruct (float_of_str rt lo); reflexivity.
Qed.

(** X18, a run: the end-to-end request with address and coordinates. *)
Lemma fresh_record_page_witness :
  exists view,
    results_page Samples.healthy "00000000000040008000000000000000"
      (snd (restore_building_image Samples.healthy "aGVsbG8=" (VDict ∅)
              (VStr "123 Main St") (VStr "40.7") (VStr "-74.0") initial_state)) =
      Ok (RestorationResults view) /\
    view_map_section view = true /\
    view_address view = Some "Address: 123 Main St".
Proof.
  destruct (fresh_record_page Samples.healthy "aGVsbG8=" ∅ (VStr "123 Main St")
              (VStr "40.7") (VStr "-74.0") initial_state eq_refl eq_refl eq_refl eq_refl)
    as (r & s' & view & Hrun & Hpage & Hmap & _ & Haddr & _).
  exists view. rewrite Hrun in *. cbn [snd].
  assert (Hid : res_id r = "00000000000040008000000000000000").
  { revert Hrun. vm_compute. intros [= <- _]. reflexivity. }
  rewrite Hid in Hpage. split; [exact Hpage|]. split; [exact Hmap | exact Haddr].
Defined.

(** X19: an address that is truthy and not a string is stored as it is,
    and the page of that record raises: the address has no [replace]. *)
Theorem non_text_address_breaks_the_page
    rt image_data (d : gmap string PyVal) address lat lon s :
  credentials_missing rt = false ->
  textual lat = true ->
  textual lon = true ->
  truthy address = true ->
  is_str address = false ->
  exists r s',
    restore_building_image rt image_data (VDict d) address lat lon s =
      (Ok (ResultData r), s') /\
    res_address r = address /\
    results_page rt (res_id r) s' =
      Raise (mkExc AttributeError
               ("'" +:+ type_name address +:+ "' object has no attribute 'replace'")).
Proof.
  intros Hcred Hlat Hlon Htruthy Hstr.
  destruct (restore_dict_run rt image_data d address lat lon s Hcred Hlat Hlon)
    as (analysis & _ & Hrun).
  cbv zeta in Hrun.
  eexists _, _. split; [exact Hrun|].
  cbn [res_id res_address]. unfold py_or. rewrite Htruthy.
  split; [reflexivity|].
  unfold results_page, stored. cbn [restoration_results].
  rewrite lookup_insert_eq. cbn [res_address]. unfold py_or. rewrite Htruthy.
  destruct address; try discriminate; reflexivity.
Qed.

Lemma non_text_address_witness :
  exists r s',
    restore_building_image Samples.healthy "aGVsbG8=" (VDict ∅) (VInt 5) VNone VNone
      initial_state = (Ok (ResultData r), s') /\
    results_page Samples.healthy (res_id r) s' =
      Raise (mkExc AttributeError "'int' object has no attribute 'replace'").
Proof.
  destruct (non_text_address_breaks_the_page Samples.healthy "aGVsbG8=" ∅ (VInt 5)
              VNone VNone initial_state eq_refl eq_refl eq_refl eq_refl eq_refl)
    as (r & s' & Hrun & _ & Hpage).
  exists r, s'. split; [exact Hrun | exact Hpage].
Defined.

(** X20: in the address written into the script every double quote
    stands right after a backslash: the [replace] puts one before each
    quote, and changes nothing else. *)
Theorem escaped_quotes_follow_a_backslash text : forall i,
  String.get i (escape_quotes text) = Some (ascii_of_nat 34) ->
  exists j, i = S j /\ String.get j (escape_quotes text) = Some (ascii_of_nat 92).
Proof.
  induction text as [|c rest IH]; intros i; [destruct i; discriminate|].
  cbn [escape_quotes].
  destruct (Ascii.eqb_spec c (ascii_of_nat 34)) as [->|Hne].
  - destruct i as [|[|k]]; cbn [String.get].
    + discriminate.
    + intros _. exists O. split; reflexivity.
    + intros H. destruct (IH k H) as (j & -> & Hj).
      exists (S (S j)). split; [reflexivity | exact Hj].
  - destruct i as [|k]; cbn [String.get].
    + intros [= H]. contradiction.
    + intros H. destruct (IH k H) as (j & -> & Hj).
      exists (S j). split; [reflexivity | exact Hj].
Qed.

Lemma escaped_quotes_witness :
  exists j,
    2%nat = S j /\
    String.get j (escape_quotes (String "5" (String (ascii_of_nat 34) " Main St"))) =
      Some (ascii_of_nat 92).
Proof.
  exact (escaped_quotes_follow_a_backslash
           (String "5" (String (ascii_of_nat 34) " Main St")) 2 eq_refl).
Defined.

(** ** A request every service answers *)

Lemma analyze_keeps_post_count rt image_data s :
  count_events is_post (trace (snd (analyze_building_with_azure rt image_data s))) =
  count_events is_post (trace s).
Proof.
  rewrite analyze_trace, count_events_app. unfold analysis_events.
  destruct (analysis_cache s !! image_key rt image_data); [cbn; lia|].
  destruct (credentials_missing rt); cbn; lia.
Qed.

Lemma generate_keeps_post_count rt prompt analysis s :
  count_events is_post
    (trace (snd (generate_restoration_description_with_azure rt prompt analysis s))) =
  count_events is_post (trace s).
Proof.
  rewrite generate_trace, count_events_app. unfold plan_events.
  destruct (credentials_missing rt); cbn; lia.
Qed.

(** X21: the request that goes well.  With credentials, a dictionary of
    options, textual coordinates, a payload that decodes and no cached
    analysis for it, when the vision call, the plan call and the first
    image-edit request of the run are all answered, the stored record
    carries the model's analysis, the model's plan and the image the
    endpoint sent, and its success flag says whether that image differs
    from the payload. *)
Theorem answered_request_record
    rt image_data (d : gmap string PyVal) address lat lon s
    analysis others plan more image_bytes v :
  credentials_missing rt = false ->
  textual lat = true ->
  textual lon = true ->
  analysis_cache s !! image_key rt image_data = None ->
  vision_service rt (count_events is_vision (trace s)) = ChatCompletes (analysis :: others) ->
  plan_service rt (count_events is_plan (trace s)) = ChatCompletes (plan :: more) ->
  b64decode image_data = Ok image_bytes ->
  answers_with rt (edit_service rt (count_events is_post (trace s))) v ->
  truthy v = true ->
  exists r s',
    restore_building_image rt image_data (VDict d) address lat lon s =
      (Ok (ResultData r), s') /\
    restoration_results s' !! res_id r = Some r /\
    res_azure_analysis r = analysis /\
    res_restoration_description r = plan /\
    res_restored_image r = v /\
    res_restoration_success r = ne_str v image_data.
Proof.
  intros Hcred Hlat Hlon Hmiss Hvision Hplan Hdecode Hanswer Htruthy.
  destruct (restore_dict_run rt image_data d address lat lon s Hcred Hlat Hlon)
    as (a & Ha & Hrun).
  cbv zeta in Hrun.
  pose proof (analyze_keeps_plan_count rt image_data (log EvUuid4 s)) as Hpc.
  pose proof (analyze_keeps_post_count rt image_data (log EvUuid4 s)) as Hqc.
  assert (Hanalysis : a = analysis).
  { revert Ha. rewrite analyze_run. cbn [log analysis_cache trace].
    rewrite Hmiss, Hcred, count_events_app. cbn.
    rewrite Nat.add_0_r, Hvision. intros [= <-]. reflexivity. }
  subst a.
  set (s1 := snd (analyze_building_with_azure rt image_data (log EvUuid4 s))) in *.
  assert (H1plan : count_events is_plan (trace s1) = count_events is_plan (trace s)).
  { rewrite Hpc. cbn [log trace]. rewrite count_events_app. cbn. lia. }
  assert (H1post : count_events is_post (trace s1) = count_events is_post (trace s)).
  { rewrite Hqc. cbn [log trace]. rewrite count_events_app. cbn. lia. }
  pose proof (generate_keeps_post_count rt (assembled_prompt rt d analysis) analysis s1)
    as Hgc.
  assert (Hgen : fst (generate_restoration_description_with_azure rt
                        (assembled_prompt rt d analysis) analysis s1) = Ok plan).
  { rewrite generate_run, Hcred, H1plan, Hplan. reflexivity. }
  rewrite Hgen in Hrun. cbn [plan_or_fallback] in Hrun.
  set (s2 := snd (generate_restoration_description_with_azure rt
                    (assembled_prompt rt d analysis) analysis s1)) in *.
  assert (Hedit : fst (create_restoration_mockup rt image_data plan s2) = Ok v).
  { rewrite create_restoration_mockup_run, Hcred, Hdecode. cbv zeta.
    rewrite (post_once_answer rt _ s2 v) by (rewrite Hgc, H1post; exact Hanswer).
    unfold attempt_blocked, edited_or_original. cbn [fst snd]. rewrite Htruthy.
    reflexivity. }
  rewrite Hedit in Hrun. cbn [edit_or_fallback fst snd] in Hrun.
  eexists _, _. split; [exact Hrun|].
  cbn [res_id res_azure_analysis res_restoration_description res_restored_image
       res_restoration_success].
  split; [unfold stored; cbn [restoration_results]; apply lookup_insert_eq|].
  repeat split; reflexivity.
Qed.

(** X21, a run with every service answering. *)
Lemma answered_request_witness :
  exists r s',
    restore_building_image Samples.healthy "aGVsbG8=" (VDict ∅) VNone VNone VNone
      initial_state = (Ok (ResultData r), s') /\
    res_restored_image r = VStr "cmVzdG9yZWQ=" /\
    res_restoration_success r = true.
Proof.
  destruct (answered_request_record Samples.healthy "aGVsbG8=" ∅ VNone VNone VNone
              initial_state "A brick warehouse." [] "Repoint the brickwork." []
              "hello" (VStr "cmVzdG9yZWQ=")
              ltac:(reflexivity) ltac:(reflexivity) ltac:(reflexivity) ltac:(reflexivity)
              ltac:(reflexivity) ltac:(reflexivity) ltac:(reflexivity))
    as (r & s' & Hrun & _ & _ & _ & Himage & Hflag).
  - exists (Samples.image_text "cmVzdG9yZWQ="),
           {[ "data" := VList [VDict {[ "b64_json" := VStr "cmVzdG9yZWQ=" ]}] ]},
           {[ "b64_json" := VStr "cmVzdG9yZWQ=" ]}, [].
    repeat split; reflexivity.
  - reflexivity.
  - exists r, s'. split; [exact Hrun|]. split; [exact Himage | exact Hflag].
Defined.
